(** * BusTub buffer pool: LRU replacer and buffer pool manager

    A shallow embedding of [src/buffer/lru_replacer.cpp] and
    [src/buffer/buffer_pool_manager.cpp], and the properties of the
    buffer pool specification checked against it.

    Conventions of the embedding.
    - [frame_id_t] values index the frame array; they are natural numbers
      (the constructor casts the indices [0 .. pool_size) to [int]).
    - [page_id_t] and the pin count are C [int]s, embedded in [Z].  The
      code raises a pin count in one place, [pin_count_ += 1] in
      [NewPageImpl]; at [INT_MAX] that is a signed overflow, which is
      undefined.  It lowers one only when the count is above one.
    - A [Page*] is the index of the frame it points to; [nullptr] is [None].
    - C++ undefined behaviour (dereferencing an end iterator, reading an
      uninitialised local, indexing outside the frame array, [pop_front] on
      an empty list, signed overflow) is the outcome [Undefined]. *)

From Stdlib.Strings Require Import Byte.
From stdpp Require Import gmap list.

(** ** Outcomes: a result or undefined behaviour *)

Inductive outcome (A : Type) : Type :=
  | Ret (a : A)
  | Undefined.
Arguments Ret {A} a.
Arguments Undefined {A}.

#[global] Instance outcome_ret : MRet outcome := @Ret.
#[global] Instance outcome_bind : MBind outcome := λ A B k m,
  match m with
  | Ret a => k a
  | Undefined => Undefined
  end.
#[global] Instance outcome_fmap : FMap outcome := λ A B f m,
  match m with
  | Ret a => Ret (f a)
  | Undefined => Undefined
  end.

(** The value an iterator or a pointer refers to; there is none behind
    [end()] or outside an array. *)
Definition deref {A : Type} (o : option A) : outcome A :=
  match o with
  | Some a => Ret a
  | None => Undefined
  end.

(** [frame_id_t] and [page_id_t] of [common/config.h], both [int]. *)
Abbreviation frame_id_t := nat (only parsing).
Abbreviation page_id_t := Z (only parsing).

(** ** lru_replacer.cpp *)

Module LRUReplacer.

(** The two public data members of [class LRUReplacer]. *)
Record t : Type := Build {
  pages : list frame_id_t;
  num_pages : nat
}.

(** [LRUReplacer::LRUReplacer] *)
Definition new (num_pages : nat) : t :=
  {| pages := []; num_pages := num_pages |}.

(** [std::list::pop_front]; undefined on an empty list. *)
Definition pop_front (l : list frame_id_t) : outcome (list frame_id_t) :=
  match l with
  | [] => Undefined
  | _ :: rest => Ret rest
  end.

(** [pages.erase(std::find(pages.begin(), pages.end(), frame_id))] when
    the element is found: the first occurrence goes. *)
Fixpoint erase_found (frame_id : frame_id_t) (l : list frame_id_t)
  : list frame_id_t :=
  match l with
  | [] => []
  | x :: rest =>
      if decide (x = frame_id) then rest else x :: erase_found frame_id rest
  end.

(** [LRUReplacer::Victim]: the output parameter is [Some] exactly when
    the C++ function returns [true]. *)
Definition Victim (r : t) : option frame_id_t * t :=
  match pages r with
  | [] => (None, r)
  | front :: rest => (Some front, {| pages := rest; num_pages := num_pages r |})
  end.

(** [LRUReplacer::Pin] *)
Definition Pin (frame_id : frame_id_t) (r : t) : t :=
  {| pages := erase_found frame_id (pages r); num_pages := num_pages r |}.

(** [LRUReplacer::Unpin] *)
Definition Unpin (frame_id : frame_id_t) (r : t) : outcome t :=
  if decide (frame_id ∈ pages r) then Ret r
  else
    kept ← (if decide (num_pages r ≤ length (pages r))
             then pop_front (pages r)
             else Ret (pages r));
    Ret {| pages := kept ++ [frame_id]; num_pages := num_pages r |}.

(** [LRUReplacer::Size] *)
Definition Size (r : t) : nat := length (pages r).

End LRUReplacer.

(** ** The collaborators of the buffer pool manager *)

Definition Data := list Byte.byte.

(** Modelled from the spec: the frame slot, [class Page] of [page.h], which
    is not among the sources.  The manager reads and writes the data
    buffer, the pin count and the dirty flag of a slot; the page identifier
    kept in a slot is never touched by the code under [src/], which finds
    the resident page through the page table, so the field is left out. *)
Record Page : Type := BuildPage {
  data_ : Data;
  pin_count_ : Z;
  is_dirty_ : bool
}.

(** The largest value of the 32-bit [int] that [pin_count_] is. *)
Definition INT_MAX : Z := 2147483647.

Definition GetData (pg : Page) : Data := data_ pg.
Definition GetPinCount (pg : Page) : Z := pin_count_ pg.
Definition IsDirty (pg : Page) : bool := is_dirty_ pg.

(** The calls the manager issues on the disk manager, in program order. *)
Inductive disk_call : Type :=
  | CallReadPage (page_id : page_id_t)
  | CallWritePage (page_id : page_id_t) (buffer : Data)
  | CallAllocatePage (page_id : page_id_t)
  | CallDeallocatePage (page_id : page_id_t).

(** Modelled from the spec: the disk manager ([disk_manager.h] is not among
    the sources).  [ReadPage] fills the buffer with the on-disk image,
    [WritePage] stores the buffer under the page identifier, [AllocatePage]
    returns a page identifier it has not issued before, [DeallocatePage]
    always succeeds and changes no stored image.  Every call is recorded in
    [calls], oldest first. *)
Record DiskManager : Type := BuildDisk {
  images : gmap page_id_t Data;
  next_page_id : page_id_t;
  calls : list disk_call
}.

Module Disk.

Definition new : DiskManager :=
  {| images := ∅; next_page_id := 0%Z; calls := [] |}.

(** The image of a page never written is [blank]. *)
Definition ReadPage (blank : Data) (page_id : page_id_t) (d : DiskManager)
  : Data * DiskManager :=
  (default blank (images d !! page_id),
   {| images := images d; next_page_id := next_page_id d;
      calls := calls d ++ [CallReadPage page_id] |}).

Definition WritePage (page_id : page_id_t) (buffer : Data) (d : DiskManager)
  : DiskManager :=
  {| images := <[page_id := buffer]> (images d);
     next_page_id := next_page_id d;
     calls := calls d ++ [CallWritePage page_id buffer] |}.

Definition AllocatePage (d : DiskManager) : page_id_t * DiskManager :=
  (next_page_id d,
   {| images := images d; next_page_id := (next_page_id d + 1)%Z;
      calls := calls d ++ [CallAllocatePage (next_page_id d)] |}).

Definition DeallocatePage (page_id : page_id_t) (d : DiskManager)
  : DiskManager :=
  {| images := images d; next_page_id := next_page_id d;
     calls := calls d ++ [CallDeallocatePage page_id] |}.

(** The page identifiers [WritePage] was called with. *)
Definition written (d : DiskManager) : list page_id_t :=
  omap (λ c, match c with CallWritePage p _ => Some p | _ => None end)
       (calls d).

End Disk.

(** ** buffer_pool_manager.cpp *)

Record BufferPoolManager : Type := BuildBPM {
  pool_size_ : nat;
  pages_ : list Page;
  replacer_ : LRUReplacer.t;
  free_list_ : list frame_id_t;
  page_table_ : gmap page_id_t frame_id_t;
  disk_manager_ : DiskManager
}.

Definition with_pages (ps : list Page) (b : BufferPoolManager) :=
  {| pool_size_ := pool_size_ b; pages_ := ps; replacer_ := replacer_ b;
     free_list_ := free_list_ b; page_table_ := page_table_ b;
     disk_manager_ := disk_manager_ b |}.

Definition with_replacer (r : LRUReplacer.t) (b : BufferPoolManager) :=
  {| pool_size_ := pool_size_ b; pages_ := pages_ b; replacer_ := r;
     free_list_ := free_list_ b; page_table_ := page_table_ b;
     disk_manager_ := disk_manager_ b |}.

Definition with_free_list (fl : list frame_id_t) (b : BufferPoolManager) :=
  {| pool_size_ := pool_size_ b; pages_ := pages_ b; replacer_ := replacer_ b;
     free_list_ := fl; page_table_ := page_table_ b;
     disk_manager_ := disk_manager_ b |}.

Definition with_page_table (pt : gmap page_id_t frame_id_t)
    (b : BufferPoolManager) :=
  {| pool_size_ := pool_size_ b; pages_ := pages_ b; replacer_ := replacer_ b;
     free_list_ := free_list_ b; page_table_ := pt;
     disk_manager_ := disk_manager_ b |}.

Definition with_disk (d : DiskManager) (b : BufferPoolManager) :=
  {| pool_size_ := pool_size_ b; pages_ := pages_ b; replacer_ := replacer_ b;
     free_list_ := free_list_ b; page_table_ := page_table_ b;
     disk_manager_ := d |}.

(** [*(GetPages() + frame_id)] *)
Definition page_at (frame_id : frame_id_t) (b : BufferPoolManager)
  : outcome Page := deref (pages_ b !! frame_id).

(** Assignment through a [Page*] that was dereferenced before. *)
Definition store_page (frame_id : frame_id_t) (pg : Page)
    (b : BufferPoolManager) : BufferPoolManager :=
  with_pages (<[frame_id := pg]> (pages_ b)) b.

(** [BufferPoolManager::GetFrameIdByPageId]: [Some] when it returns true. *)
Definition GetFrameIdByPageId (page_id : page_id_t) (b : BufferPoolManager)
  : option frame_id_t := page_table_ b !! page_id.

(** [std::find_if] over the page table for the entry of a frame, then
    [pos->first].  The iteration order of [std::unordered_map] is
    unspecified; [map_to_list] stands for it. *)
Definition find_page_of_frame (frame_id : frame_id_t)
    (pt : gmap page_id_t frame_id_t) : outcome page_id_t :=
  deref (fst <$> (snd <$>
    list_find (λ pr : page_id_t * frame_id_t, pr.2 = frame_id)
              (map_to_list pt))).

(** [std::find_if] with the predicate of [NewPageImpl]: does some entry of
    the page table point to a frame whose pin count is [<= 0]?  The
    predicate dereferences the frame of every entry it visits. *)
Fixpoint find_unpinned (entries : list (page_id_t * frame_id_t))
    (b : BufferPoolManager) : outcome bool :=
  match entries with
  | [] => Ret false
  | pr :: rest =>
      pg ← page_at pr.2 b;
      if bool_decide (GetPinCount pg ≤ 0)%Z then Ret true
      else find_unpinned rest b
  end.

Definition set_data (buffer : Data) (pg : Page) : Page :=
  {| data_ := buffer; pin_count_ := pin_count_ pg; is_dirty_ := is_dirty_ pg |}.
Definition set_pin_count (n : Z) (pg : Page) : Page :=
  {| data_ := data_ pg; pin_count_ := n; is_dirty_ := is_dirty_ pg |}.
Definition set_is_dirty (d : bool) (pg : Page) : Page :=
  {| data_ := data_ pg; pin_count_ := pin_count_ pg; is_dirty_ := d |}.

Section Impl.

(** [PAGE_SIZE] of [common/config.h] and the body of [Page::ResetMemory]
    of [page.h] are not among the sources: both are parameters of the
    embedding, and nothing proved below constrains them. *)
Variable PAGE_SIZE : nat.
Variable ResetMemory : Page → Page.

Definition blank : Data := replicate PAGE_SIZE x00.

(** Modelled from the spec: a frame slot as [new Page[pool_size_]] leaves
    it; [page.h] is not among the sources.  The free list "initially
    contains all N identifiers" and a frame is in the free list "only if
    ... dirty == false and pin_count == 0". *)
Definition new_Page : Page :=
  {| data_ := blank; pin_count_ := 0; is_dirty_ := false |}.

(** [BufferPoolManager::BufferPoolManager]; the log manager is stored and
    never used, it is left out. *)
Definition new (pool_size : nat) (disk_manager : DiskManager)
  : BufferPoolManager :=
  {| pool_size_ := pool_size;
     pages_ := replicate pool_size new_Page;
     replacer_ := LRUReplacer.new pool_size;
     free_list_ := seq 0 pool_size;
     page_table_ := ∅;
     disk_manager_ := disk_manager |}.

(** [BufferPoolManager::FetchPageImpl] *)
Definition FetchPageImpl (page_id : page_id_t) (b : BufferPoolManager)
  : outcome (option frame_id_t * BufferPoolManager) :=
  match GetFrameIdByPageId page_id b with
  | Some frame_id =>
      Ret (Some frame_id,
           with_replacer (LRUReplacer.Pin frame_id (replacer_ b)) b)
  | None =>
      chosen ←
        match free_list_ b with
        | frame_id :: rest => Ret (Some (frame_id, with_free_list rest b))
        | [] =>
            match LRUReplacer.Victim (replacer_ b) with
            | (None, _) => Ret None
            | (Some frame_id, r) =>
                let b := with_replacer r b in
                old_page_id ← find_page_of_frame frame_id (page_table_ b);
                old_page ← page_at frame_id b;
                let b :=
                  if IsDirty old_page
                  then with_disk (Disk.WritePage old_page_id (GetData old_page)
                                    (disk_manager_ b)) b
                  else b in
                let b := with_page_table (delete old_page_id (page_table_ b)) b in
                Ret (Some (frame_id, store_page frame_id (ResetMemory old_page) b))
            end
        end;
      match chosen with
      | None => Ret (None, b)
      | Some (frame_id, b) =>
          page ← page_at frame_id b;
          let '(buffer, d) := Disk.ReadPage blank page_id (disk_manager_ b) in
          let page := set_data buffer page in
          let b := with_disk d b in
          let b := with_page_table (<[page_id := frame_id]> (page_table_ b)) b in
          let b := with_replacer (LRUReplacer.Pin frame_id (replacer_ b)) b in
          let page :=
            if bool_decide (pin_count_ page ≤ 0)%Z
            then set_pin_count 1 page else page in
          Ret (Some frame_id, store_page frame_id page b)
      end
  end.

(** [BufferPoolManager::UnpinPageImpl] *)
Definition UnpinPageImpl (page_id : page_id_t) (is_dirty : bool)
    (b : BufferPoolManager) : outcome (bool * BufferPoolManager) :=
  match GetFrameIdByPageId page_id b with
  | Some frame_id =>
      page ← page_at frame_id b;
      let old_pin_count := pin_count_ page in
      '(page, b) ←
        (if bool_decide (old_pin_count = 1)%Z then
           r ← LRUReplacer.Unpin frame_id (replacer_ b);
           Ret (set_pin_count 0 page, with_replacer r b)
         else if bool_decide (1 < old_pin_count)%Z then
           Ret (set_pin_count (pin_count_ page - 1) page, b)
         else Ret (page, b));
      let page := set_is_dirty is_dirty page in
      Ret (negb (bool_decide (old_pin_count ≤ 0)%Z), store_page frame_id page b)
  | None => Ret (false, b)
  end.

(** [BufferPoolManager::FlushPageImpl] *)
Definition FlushPageImpl (page_id : page_id_t) (b : BufferPoolManager)
  : outcome (bool * BufferPoolManager) :=
  match GetFrameIdByPageId page_id b with
  | Some frame_id =>
      page ← page_at frame_id b;
      Ret (true,
           with_disk (Disk.WritePage page_id (GetData page) (disk_manager_ b)) b)
  | None => Ret (false, b)
  end.

(** [BufferPoolManager::NewPageImpl]: the result carries the page
    identifier stored through the output parameter and the frame. *)
Definition NewPageImpl (b : BufferPoolManager)
  : outcome (option (page_id_t * frame_id_t) * BufferPoolManager) :=
  all_pinned ←
    (if bool_decide (pool_size_ b ≤ size (page_table_ b)) then
       found ← find_unpinned (map_to_list (page_table_ b)) b;
       Ret (negb found)
     else Ret false);
  if all_pinned : bool then Ret (None, b)
  else
    let '(page_id, d) := Disk.AllocatePage (disk_manager_ b) in
    let b := with_disk d b in
    (* [old_page_id] stays uninitialised on the free-list branch;
       [frame_id] stays uninitialised when [Victim] returns false. *)
    '(frame_id, old_page_id, b) ←
      match free_list_ b with
      | frame_id :: rest => Ret (frame_id, None, with_free_list rest b)
      | [] =>
          match LRUReplacer.Victim (replacer_ b) with
          | (None, _) => Undefined
          | (Some frame_id, r) =>
              old_page_id ← find_page_of_frame frame_id (page_table_ b);
              Ret (frame_id, Some old_page_id, with_replacer r b)
          end
      end;
    page ← page_at frame_id b;
    '(page, b) ←
      (if IsDirty page then
         old_page_id ← deref old_page_id;
         Ret (ResetMemory page,
              with_disk (Disk.WritePage old_page_id (GetData page)
                           (disk_manager_ b)) b)
       else Ret (page, b));
    let b := with_page_table (<[page_id := frame_id]> (page_table_ b)) b in
    (* [page->pin_count_ += 1] on an [int] *)
    page ←
      (if bool_decide (pin_count_ page < INT_MAX)%Z
       then Ret (set_pin_count (pin_count_ page + 1) page)
       else Undefined);
    Ret (Some (page_id, frame_id), store_page frame_id page b).

(** [BufferPoolManager::DeletePageImpl] *)
Definition DeletePageImpl (page_id : page_id_t) (b : BufferPoolManager)
  : outcome (bool * BufferPoolManager) :=
  let b := with_disk (Disk.DeallocatePage page_id (disk_manager_ b)) b in
  match GetFrameIdByPageId page_id b with
  | Some frame_id =>
      page ← page_at frame_id b;
      if bool_decide (0 < GetPinCount page)%Z then Ret (false, b)
      else
        let b := with_page_table (delete page_id (page_table_ b)) b in
        let b := store_page frame_id (ResetMemory page) b in
        Ret (true, with_free_list (free_list_ b ++ [frame_id]) b)
  | None => Ret (true, b)
  end.

(** [BufferPoolManager::FlushAllPagesImpl]; [FlushPage] is the public
    wrapper of [FlushPageImpl]. *)
Definition FlushAllPagesImpl (b : BufferPoolManager)
  : outcome BufferPoolManager :=
  foldl (λ acc (pr : page_id_t * frame_id_t),
           b ← acc; '(_, b) ← FlushPageImpl pr.1 b; Ret b)
        (Ret b) (map_to_list (page_table_ b)).

(** *** Sequences of calls on one manager *)

Inductive call : Type :=
  | FetchPage (page_id : page_id_t)
  | UnpinPage (page_id : page_id_t) (is_dirty : bool)
  | FlushPage (page_id : page_id_t)
  | NewPage
  | DeletePage (page_id : page_id_t)
  | FlushAllPages.

#[global] Instance call_eq_dec : EqDecision call.
Proof. solve_decision. Defined.

Definition exec (c : call) (b : BufferPoolManager)
  : outcome BufferPoolManager :=
  match c with
  | FetchPage p => snd <$> FetchPageImpl p b
  | UnpinPage p d => snd <$> UnpinPageImpl p d b
  | FlushPage p => snd <$> FlushPageImpl p b
  | NewPage => snd <$> NewPageImpl b
  | DeletePage p => snd <$> DeletePageImpl p b
  | FlushAllPages => FlushAllPagesImpl b
  end.

Fixpoint run (cs : list call) (b : BufferPoolManager)
  : outcome BufferPoolManager :=
  match cs with
  | [] => Ret b
  | c :: rest => b ← exec c b; run rest b
  end.

End Impl.

Arguments FetchPage page_id%_Z.
Arguments UnpinPage page_id%_Z is_dirty.
Arguments FlushPage page_id%_Z.
Arguments DeletePage page_id%_Z.


(** An instance of [ResetMemory] for running the manager on concrete
    pools: the buffer is zero-filled, pin count and dirty flag stay. *)
Definition zero_fill (PAGE_SIZE : nat) (pg : Page) : Page :=
  set_data (blank PAGE_SIZE) pg.

(** Pin count and dirty flag of a frame, when the frame exists. *)
Definition pin_count_of (frame_id : frame_id_t) (b : BufferPoolManager)
  : option Z := pin_count_ <$> pages_ b !! frame_id.
Definition is_dirty_of (frame_id : frame_id_t) (b : BufferPoolManager)
  : option bool := is_dirty_ <$> pages_ b !! frame_id.

(** *** What a write-back may rely on

    The facts about a manager state that make the write-back of
    [FetchPageImpl] predictable, for a set [allowed] of pages that may be
    written: free list and replacer hold no frame twice, no two pages share
    a frame, a resident frame is not in the free list, a dirty resident
    frame held by the replacer carries an allowed page, and only allowed
    pages were written so far. *)
Record write_back_inv (allowed : page_id_t → Prop) (b : BufferPoolManager)
  : Prop := {
  inv_free_NoDup : NoDup (free_list_ b);
  inv_replacer_NoDup : NoDup (LRUReplacer.pages (replacer_ b));
  inv_table_inj : ∀ p q f,
    page_table_ b !! p = Some f → page_table_ b !! q = Some f → p = q;
  inv_free_not_resident : ∀ p f,
    page_table_ b !! p = Some f → f ∉ free_list_ b;
  inv_dirty : ∀ p f pg,
    page_table_ b !! p = Some f →
    f ∈ LRUReplacer.pages (replacer_ b) →
    pages_ b !! f = Some pg →
    is_dirty_ pg = true → allowed p;
  inv_written : ∀ p, p ∈ Disk.written (disk_manager_ b) → allowed p
}.

(** The calls that keep [write_back_inv]: an unpin with the dirty flag set
    and a flush name an allowed page, [FlushAllPages] needs every page
    allowed, [NewPage] is not among them. *)
Definition respects (allowed : page_id_t → Prop) (c : call) : Prop :=
  match c with
  | UnpinPage p true => allowed p
  | FlushPage p => allowed p
  | FlushAllPages => ∀ p, allowed p
  | NewPage => False
  | _ => True
  end.

(** What keeps a run without [NewPage] clear of undefined behaviour: the
    frames named by the page table and the free list exist, the replacer
    has the capacity of the pool, and a frame held by the replacer is free
    or resident. *)
Record defined_inv (b : BufferPoolManager) : Prop := {
  def_table_frames : ∀ p f,
    page_table_ b !! p = Some f → f < length (pages_ b);
  def_free_frames : ∀ f, f ∈ free_list_ b → f < length (pages_ b);
  def_capacity : LRUReplacer.num_pages (replacer_ b) = length (pages_ b);
  def_replacer : ∀ f,
    f ∈ LRUReplacer.pages (replacer_ b) →
    f ∈ free_list_ b ∨ ∃ p, page_table_ b !! p = Some f
}.

(** *** Sequences of calls on one replacer *)

Inductive replacer_call : Type :=
  | CallVictim
  | CallPin (frame_id : frame_id_t)
  | CallUnpin (frame_id : frame_id_t).

Definition replacer_exec (c : replacer_call) (r : LRUReplacer.t)
  : outcome LRUReplacer.t :=
  match c with
  | CallVictim => Ret (LRUReplacer.Victim r).2
  | CallPin f => Ret (LRUReplacer.Pin f r)
  | CallUnpin f => LRUReplacer.Unpin f r
  end.

Fixpoint replacer_run (cs : list replacer_call) (r : LRUReplacer.t)
  : outcome LRUReplacer.t :=
  match cs with
  | [] => Ret r
  | c :: rest => r ← replacer_exec c r; replacer_run rest r
  end.

(** [Victim] called up to [k] times, stopping at the first call that
    returns false: the frames handed out, in order, and the replacer left. *)
Fixpoint victims (k : nat) (r : LRUReplacer.t)
  : list frame_id_t * LRUReplacer.t :=
  match k with
  | 0 => ([], r)
  | S k =>
      match LRUReplacer.Victim r with
      | (Some f, r) => let '(fs, r) := victims k r in (f :: fs, r)
      | (None, r) => ([], r)
      end
  end.


(** * Properties *)

(** Projections of updated manager states. *)
Ltac simpl_fields :=
  cbn [pool_size_ pages_ replacer_ free_list_ page_table_ disk_manager_
       with_pages with_replacer with_free_list with_page_table with_disk
       store_page] in *.

(** The pages written, after calls were appended to the record. *)
Ltac solve_written :=
  unfold Disk.written; simpl; rewrite ?omap_app; simpl;
  rewrite ?app_nil_r; done.

(** Unfolding of the operations, one tactic per function. *)
Ltac unfold_Fetch := unfold FetchPageImpl, GetFrameIdByPageId.
Ltac unfold_Unpin := unfold UnpinPageImpl, GetFrameIdByPageId.
Ltac unfold_Flush := unfold FlushPageImpl, GetFrameIdByPageId.
Ltac unfold_New := unfold NewPageImpl.
Ltac unfold_Delete := unfold DeletePageImpl, GetFrameIdByPageId.

(** Closed decidable facts are settled by evaluation. *)
Ltac by_decide := apply (bool_decide_unpack _); vm_compute; exact I.

(** ** Outcomes *)

Lemma bind_Ret_inv {A B} (m : outcome A) (k : A → outcome B) (y : B) :
  m ≫= k = Ret y → ∃ a, m = Ret a ∧ k a = Ret y.
Proof. destruct m as [a|]; [eauto | discriminate]. Qed.

Lemma fmap_Ret_inv {A B} (f : A → B) (m : outcome A) (y : B) :
  f <$> m = Ret y → ∃ a, m = Ret a ∧ y = f a.
Proof. destruct m as [a|]; [| discriminate]. intros [= <-]. eauto. Qed.

Lemma deref_Ret_inv {A} (o : option A) (a : A) : deref o = Ret a → o = Some a.
Proof. destruct o; [| discriminate]. by intros [= ->]. Qed.

Lemma page_at_Ret frame_id b pg :
  page_at frame_id b = Ret pg ↔ pages_ b !! frame_id = Some pg.
Proof.
  unfold page_at. split; [apply deref_Ret_inv |]. by intros ->.
Qed.

(** ** The replacer *)

Lemma erase_found_elem_of f x l :
  x ∈ LRUReplacer.erase_found f l → x ∈ l.
Proof.
  induction l as [|y l IH]; simpl; [done |].
  case_decide.
  - intros ?. by right.
  - rewrite !elem_of_cons. intros [->|?]; [by left | right; auto].
Qed.

Lemma erase_found_NoDup f l :
  NoDup l → NoDup (LRUReplacer.erase_found f l).
Proof.
  induction 1 as [|y l Hy Hl IH]; simpl; [constructor |].
  case_decide; [done |].
  constructor; [| done]. intros Hin. apply Hy. by eapply erase_found_elem_of.
Qed.

Lemma erase_found_not_elem_of f l :
  NoDup l → f ∉ LRUReplacer.erase_found f l.
Proof.
  induction 1 as [|y l Hy Hl IH]; simpl; [apply not_elem_of_nil |].
  case_decide; [by subst |].
  rewrite elem_of_cons. intros [?|?]; [congruence | done].
Qed.

Lemma erase_found_absent f l : f ∉ l → LRUReplacer.erase_found f l = l.
Proof.
  induction l as [|y l IH]; simpl; [done |].
  rewrite not_elem_of_cons. intros [Hne Hnin].
  case_decide; [congruence |]. by rewrite IH.
Qed.

(** [Pin] on a frame the replacer does not track changes nothing. *)
Lemma Pin_absent f r :
  f ∉ LRUReplacer.pages r → LRUReplacer.Pin f r = r.
Proof.
  intros Hnin. destruct r as [l n]. unfold LRUReplacer.Pin. simpl in *.
  by rewrite erase_found_absent.
Qed.

(** What [Unpin] leaves in the replacer was there before, or is the frame
    just unpinned. *)
Lemma Unpin_elem_of f r r' x :
  LRUReplacer.Unpin f r = Ret r' →
  x ∈ LRUReplacer.pages r' → x = f ∨ x ∈ LRUReplacer.pages r.
Proof.
  unfold LRUReplacer.Unpin. case_decide as Hin.
  - intros [= <-]. auto.
  - intros (kept & Hkept & [= <-])%bind_Ret_inv. simpl.
    rewrite elem_of_app, list_elem_of_singleton. intros [Hx|?]; [right | by left].
    case_decide; [| by injection Hkept as <-].
    destruct (LRUReplacer.pages r) as [|y l]; simpl in Hkept; [discriminate |].
    injection Hkept as <-. by right.
Qed.

Lemma Unpin_NoDup f r r' :
  LRUReplacer.Unpin f r = Ret r' →
  NoDup (LRUReplacer.pages r) → NoDup (LRUReplacer.pages r').
Proof.
  unfold LRUReplacer.Unpin. case_decide as Hin.
  - by intros [= <-].
  - intros (kept & Hkept & [= <-])%bind_Ret_inv Hnd. simpl.
    assert (kept = LRUReplacer.pages r ∨
            ∃ y, LRUReplacer.pages r = y :: kept) as Hk.
    { case_decide; [| injection Hkept as <-; by left].
      destruct (LRUReplacer.pages r) as [|y l]; simpl in Hkept; [discriminate |].
      injection Hkept as <-. right. eauto. }
    apply NoDup_app. destruct Hk as [-> | [y Hy]].
    + split_and!; [done | | apply NoDup_singleton].
      intros x Hx ->%list_elem_of_singleton. done.
    + rewrite Hy in Hnd, Hin. apply NoDup_cons in Hnd as [_ Hnd].
      split_and!; [done | | apply NoDup_singleton].
      intros x Hx ->%list_elem_of_singleton. apply Hin. by right.
Qed.

(** [Unpin] keeps the capacity, and returns when the capacity is not
    zero. *)
Lemma Unpin_num_pages f r r' :
  LRUReplacer.Unpin f r = Ret r' →
  LRUReplacer.num_pages r' = LRUReplacer.num_pages r.
Proof.
  unfold LRUReplacer.Unpin. case_decide; [by intros [= <-] |].
  by intros (kept & _ & [= <-])%bind_Ret_inv.
Qed.

Lemma Unpin_defined f r :
  0 < LRUReplacer.num_pages r → ∃ r', LRUReplacer.Unpin f r = Ret r'.
Proof.
  intros Hpos. unfold LRUReplacer.Unpin. case_decide; [by eexists |].
  case_decide; [| by eexists].
  destruct (LRUReplacer.pages r); simpl in *; [lia | by eexists].
Qed.

(** C9 (amended). [LRUReplacer::Unpin] on a tracked frame changes nothing,
    so a second [Unpin] of the same frame is a no-op.  On an untracked
    frame, with the replacer at capacity and holding a front entry, which
    it does when the capacity is above zero, it drops the front entry and
    appends the frame at the back; below capacity it only appends.  A
    replacer of capacity above zero that is within its capacity stays
    within it. *)
Theorem C9_Unpin_replacer (r : LRUReplacer.t) (frame_id : frame_id_t) :
  (frame_id ∈ LRUReplacer.pages r → LRUReplacer.Unpin frame_id r = Ret r) ∧
  (∀ r', LRUReplacer.Unpin frame_id r = Ret r' →
         LRUReplacer.Unpin frame_id r' = Ret r') ∧
  (∀ front rest,
     frame_id ∉ LRUReplacer.pages r →
     LRUReplacer.pages r = front :: rest →
     LRUReplacer.num_pages r ≤ length (LRUReplacer.pages r) →
     LRUReplacer.Unpin frame_id r =
       Ret (LRUReplacer.Build (rest ++ [frame_id]) (LRUReplacer.num_pages r))) ∧
  (frame_id ∉ LRUReplacer.pages r →
   length (LRUReplacer.pages r) < LRUReplacer.num_pages r →
   LRUReplacer.Unpin frame_id r =
     Ret (LRUReplacer.Build (LRUReplacer.pages r ++ [frame_id])
                            (LRUReplacer.num_pages r))) ∧
  (0 < LRUReplacer.num_pages r →
   LRUReplacer.Size r ≤ LRUReplacer.num_pages r →
   ∃ r', LRUReplacer.Unpin frame_id r = Ret r' ∧
         LRUReplacer.num_pages r' = LRUReplacer.num_pages r ∧
         LRUReplacer.Size r' ≤ LRUReplacer.num_pages r').
Proof.
  destruct r as [l n]. unfold LRUReplacer.Unpin, LRUReplacer.Size. simpl.
  split_and!.
  - intros Hin. by rewrite decide_True.
  - intros r'. case_decide as Hin.
    + intros [= <-]. simpl. by rewrite decide_True.
    + intros (kept & _ & [= <-])%bind_Ret_inv. simpl.
      rewrite decide_True; [done |]. apply elem_of_app. right. by left.
  - intros front rest Hnin -> Hcap.
    rewrite decide_False by done. by rewrite decide_True.
  - intros Hnin Hlt.
    rewrite decide_False by done. rewrite decide_False by lia. done.
  - intros Hpos Hle. case_decide as Hin; [by eexists |].
    case_decide as Hcap.
    + destruct l as [|y l]; simpl in *; [lia |].
      eexists. split_and!; [done | done |]. simpl.
      rewrite length_app. simpl. lia.
    + eexists. split_and!; [done | done |]. simpl.
      rewrite length_app. simpl. lia.
Qed.

(** A replacer of capacity three holding frames 0, 1, 2: unpinning frame 1
    again changes nothing, unpinning frame 3 drops frame 0. *)
Lemma C9_Unpin_replacer_witness :
  LRUReplacer.Unpin 1 (LRUReplacer.Build [0; 1; 2] 3)
    = Ret (LRUReplacer.Build [0; 1; 2] 3) ∧
  LRUReplacer.Unpin 3 (LRUReplacer.Build [0; 1; 2] 3)
    = Ret (LRUReplacer.Build [1; 2; 3] 3).
Proof.
  split.
  - apply (proj1 (C9_Unpin_replacer (LRUReplacer.Build [0; 1; 2] 3) 1)).
    simpl. by_decide.
  - apply (proj1 (proj2 (proj2
             (C9_Unpin_replacer (LRUReplacer.Build [0; 1; 2] 3) 3))) 0 [1; 2]).
    + simpl. by_decide.
    + reflexivity.
    + simpl. lia.
Defined.

(** C9 as stated fails at capacity zero: the empty replacer of capacity
    zero holds its capacity of entries, frame 0 is not tracked, and
    [Unpin] calls [pop_front] on the empty list instead of returning a
    replacer with the front dropped and the frame appended. *)
Lemma C9_Unpin_capacity_zero :
  ¬ (∀ (r : LRUReplacer.t) (frame_id : nat),
       frame_id ∉ LRUReplacer.pages r →
       LRUReplacer.Size r = LRUReplacer.num_pages r →
       ∃ r', LRUReplacer.Unpin frame_id r = Ret r' ∧
             LRUReplacer.pages r' =
               drop 1 (LRUReplacer.pages r) ++ [frame_id] ∧
             LRUReplacer.Size r' ≤ LRUReplacer.num_pages r').
Proof.
  intros Hclaim.
  destruct (Hclaim (LRUReplacer.new 0) 0) as (r' & Hunpin & _).
  - apply not_elem_of_nil.
  - reflexivity.
  - vm_compute in Hunpin. discriminate Hunpin.
Qed.

(** ** The buffer pool manager *)

Section Manager.

Variable PAGE_SIZE : nat.
Variable ResetMemory : Page → Page.

Local Abbreviation new := (new PAGE_SIZE).
Local Abbreviation FetchPageImpl := (FetchPageImpl PAGE_SIZE ResetMemory).
Local Abbreviation NewPageImpl := (NewPageImpl ResetMemory).
Local Abbreviation DeletePageImpl := (DeletePageImpl ResetMemory).
Local Abbreviation exec := (exec PAGE_SIZE ResetMemory).
Local Abbreviation run := (run PAGE_SIZE ResetMemory).

(** *** FetchPage on a resident page *)

(** The hit path of [FetchPageImpl]: the frame leaves the replacer and is
    returned; the frame array, and with it every pin count, is as before. *)
Lemma FetchPageImpl_hit b page_id frame_id :
  page_table_ b !! page_id = Some frame_id →
  FetchPageImpl page_id b =
    Ret (Some frame_id,
         with_replacer (LRUReplacer.Pin frame_id (replacer_ b)) b).
Proof.
  intros Hres. unfold_Fetch. by rewrite Hres.
Qed.

Lemma FetchPageImpl_hit_pin_count b page_id frame_id r b' :
  page_table_ b !! page_id = Some frame_id →
  NoDup (LRUReplacer.pages (replacer_ b)) →
  FetchPageImpl page_id b = Ret (r, b') →
  r = Some frame_id ∧
  pin_count_of frame_id b' = pin_count_of frame_id b ∧
  frame_id ∉ LRUReplacer.pages (replacer_ b').
Proof.
  intros Hres Hnd. rewrite (FetchPageImpl_hit _ _ _ Hres). intros [= <- <-].
  split_and!; [done | done |]. simpl. by apply erase_found_not_elem_of.
Qed.

(** C1. On a pool of three frames with pages 0, 1 and 2 fetched, and so
    pinned once each, fetching page 0 again takes the hit path and returns
    frame 0, but the pin count of frame 0 is 1 after the call as it was
    before: the hit path does not count the new pin. *)
Theorem C1_FetchPage_hit_keeps_pin_count :
  ∃ b b',
    run [FetchPage 0; FetchPage 1; FetchPage 2] (new 3 Disk.new) = Ret b ∧
    page_table_ b !! 0%Z = Some 0 ∧
    pin_count_of 0 b = Some 1%Z ∧
    FetchPageImpl 0%Z b = Ret (Some 0, b') ∧
    pin_count_of 0 b' = Some 1%Z.
Proof.
  eexists. eexists. split; [vm_compute; reflexivity |].
  split_and!; vm_compute; reflexivity.
Qed.

(** *** FlushPage *)

(** C8. [FlushPageImpl] on a resident page issues one [WritePage] of the
    frame's data, whatever the dirty flag, returns true and changes
    nothing in the manager (the dirty flag stays as it was); on a page that
    is not resident it returns false and issues no call. *)
Theorem C8_FlushPage (b : BufferPoolManager) (page_id : page_id_t) :
  (∀ frame_id page,
     page_table_ b !! page_id = Some frame_id →
     pages_ b !! frame_id = Some page →
     ∃ b', FlushPageImpl page_id b = Ret (true, b') ∧
           calls (disk_manager_ b') =
             calls (disk_manager_ b) ++ [CallWritePage page_id (data_ page)] ∧
           pages_ b' = pages_ b ∧
           is_dirty_of frame_id b' = Some (is_dirty_ page) ∧
           page_table_ b' = page_table_ b ∧
           free_list_ b' = free_list_ b ∧
           replacer_ b' = replacer_ b) ∧
  (page_table_ b !! page_id = None →
   FlushPageImpl page_id b = Ret (false, b)).
Proof.
  unfold_Flush. unfold page_at. split.
  - intros frame_id page -> Hpg. simpl. rewrite Hpg. simpl.
    eexists. split_and!; try reflexivity.
    unfold is_dirty_of. simpl. by rewrite Hpg.
  - by intros ->.
Qed.

(** *** DeletePage *)

(** C10. Deleting a resident page whose frame has pin count zero returns
    true and ends the residency; deleting it again returns true and
    changes nothing in the manager, only [DeallocatePage] is called once
    more. *)
Theorem C10_DeletePage_twice (b : BufferPoolManager) (page_id : page_id_t)
    (frame_id : frame_id_t) (page : Page) :
  page_table_ b !! page_id = Some frame_id →
  pages_ b !! frame_id = Some page →
  pin_count_ page = 0%Z →
  ∃ b1 b2,
    DeletePageImpl page_id b = Ret (true, b1) ∧
    page_table_ b1 !! page_id = None ∧
    DeletePageImpl page_id b1 = Ret (true, b2) ∧
    page_table_ b2 = page_table_ b1 ∧
    pages_ b2 = pages_ b1 ∧
    free_list_ b2 = free_list_ b1 ∧
    replacer_ b2 = replacer_ b1 ∧
    pool_size_ b2 = pool_size_ b1 ∧
    images (disk_manager_ b2) = images (disk_manager_ b1) ∧
    calls (disk_manager_ b2) =
      calls (disk_manager_ b1) ++ [CallDeallocatePage page_id].
Proof.
  intros Hres Hpg Hpin.
  unfold_Delete. unfold page_at. simpl.
  rewrite Hres. simpl. rewrite Hpg. simpl.
  unfold GetPinCount. rewrite Hpin.
  rewrite bool_decide_eq_false_2 by lia.
  eexists. eexists. split; [reflexivity |].
  split; [simpl; apply lookup_delete_eq |].
  simpl_fields. rewrite lookup_delete_eq. split_and!; reflexivity.
Qed.

(** *** UnpinPage *)

(** What [UnpinPageImpl] does to a resident page: the pin count moves as
    the three branches say, the dirty flag becomes the argument, and the
    frame enters the replacer when the pin count was one. *)
Lemma UnpinPageImpl_resident b page_id is_dirty frame_id page r b' :
  page_table_ b !! page_id = Some frame_id →
  pages_ b !! frame_id = Some page →
  UnpinPageImpl page_id is_dirty b = Ret (r, b') →
  r = negb (bool_decide (pin_count_ page ≤ 0)%Z) ∧
  page_table_ b' = page_table_ b ∧
  free_list_ b' = free_list_ b ∧
  disk_manager_ b' = disk_manager_ b ∧
  pool_size_ b' = pool_size_ b ∧
  (∃ n, pages_ b' =
          <[frame_id := set_is_dirty is_dirty (set_pin_count n page)]> (pages_ b)) ∧
  (if bool_decide (pin_count_ page = 1)%Z
   then LRUReplacer.Unpin frame_id (replacer_ b) = Ret (replacer_ b')
   else replacer_ b' = replacer_ b).
Proof.
  intros Hres Hpg. unfold_Unpin. unfold page_at. rewrite Hres, Hpg. simpl.
  destruct (bool_decide (pin_count_ page = 1)%Z).
  - destruct (LRUReplacer.Unpin frame_id (replacer_ b)) as [r0|]; [| discriminate].
    simpl. intros [= <- <-]. simpl_fields.
    split_and!; try done. by exists 0%Z.
  - destruct (bool_decide (1 < pin_count_ page)%Z); simpl;
      intros [= <- <-]; simpl_fields; split_and!; try done.
    + by eexists.
    + exists (pin_count_ page). by destruct page.
Qed.

(** The dirty flag after [UnpinPageImpl] is the argument of the call,
    whatever it was before. *)
Lemma UnpinPageImpl_dirty b page_id is_dirty frame_id page r b' :
  page_table_ b !! page_id = Some frame_id →
  pages_ b !! frame_id = Some page →
  UnpinPageImpl page_id is_dirty b = Ret (r, b') →
  is_dirty_of frame_id b' = Some is_dirty.
Proof.
  intros Hres Hpg Hrun.
  destruct (UnpinPageImpl_resident _ _ _ _ _ _ _ Hres Hpg Hrun)
    as (_ & _ & _ & _ & _ & [n Hn] & _).
  unfold is_dirty_of. rewrite Hn.
  rewrite list_lookup_insert_eq; [done |]. by eapply lookup_lt_Some.
Qed.

(** With a pin count of zero or less [UnpinPageImpl] returns false and
    still stores the dirty flag it was given. *)
Lemma UnpinPageImpl_underflow b page_id is_dirty frame_id page :
  page_table_ b !! page_id = Some frame_id →
  pages_ b !! frame_id = Some page →
  (pin_count_ page ≤ 0)%Z →
  UnpinPageImpl page_id is_dirty b =
    Ret (false, store_page frame_id (set_is_dirty is_dirty page) b).
Proof.
  intros Hres Hpg Hpin. unfold_Unpin. unfold page_at. rewrite Hres, Hpg. simpl.
  rewrite (bool_decide_eq_false_2 (pin_count_ page = 1)%Z) by lia.
  rewrite (bool_decide_eq_false_2 (1 < pin_count_ page)%Z) by lia.
  simpl. by rewrite bool_decide_eq_true_2.
Qed.

(** C2. On a pool of one frame, page 0 is fetched and unpinned with
    [is_dirty = true]: the frame is dirty.  A further [UnpinPage] of page 0
    with [is_dirty = false] leaves the frame clean, not dirty as the OR of
    the two flags would; the fetch of page 1 that follows evicts page 0
    with no [WritePage] at all. *)
Theorem C2_UnpinPage_overwrites_dirty :
  ∃ b1 b2 b3,
    run [FetchPage 0; UnpinPage 0 true] (new 1 Disk.new) = Ret b1 ∧
    page_table_ b1 !! 0%Z = Some 0 ∧
    is_dirty_of 0 b1 = Some true ∧
    UnpinPageImpl 0%Z false b1 = Ret (false, b2) ∧
    is_dirty_of 0 b2 = Some false ∧
    FetchPageImpl 1%Z b2 = Ret (Some 0, b3) ∧
    Disk.written (disk_manager_ b3) = [].
Proof.
  do 3 eexists. split; [vm_compute; reflexivity |].
  split_and!; vm_compute; reflexivity.
Qed.

(** C4. On a pool of one frame, page 0 is fetched and unpinned clean: its
    pin count is zero.  A further [UnpinPage] of page 0 with
    [is_dirty = true] returns false and leaves pin count, page table, free
    list and replacer alone, but it sets the dirty flag of the frame; the
    fetch of page 1 that follows writes page 0 back. *)
Theorem C4_UnpinPage_underflow_sets_dirty :
  ∃ b1 b2 b3,
    run [FetchPage 0; UnpinPage 0 false] (new 1 Disk.new) = Ret b1 ∧
    page_table_ b1 !! 0%Z = Some 0 ∧
    pin_count_of 0 b1 = Some 0%Z ∧
    is_dirty_of 0 b1 = Some false ∧
    UnpinPageImpl 0%Z true b1 = Ret (false, b2) ∧
    is_dirty_of 0 b2 = Some true ∧
    pin_count_of 0 b2 = Some 0%Z ∧
    page_table_ b2 = page_table_ b1 ∧
    free_list_ b2 = free_list_ b1 ∧
    replacer_ b2 = replacer_ b1 ∧
    FetchPageImpl 1%Z b2 = Ret (Some 0, b3) ∧
    Disk.written (disk_manager_ b3) = [0%Z].
Proof.
  do 3 eexists. split; [vm_compute; reflexivity |].
  split_and!; vm_compute; reflexivity.
Qed.

(** *** Free list and replacer *)

(** [DeletePageImpl] never calls the replacer. *)
Lemma DeletePageImpl_replacer b page_id r b' :
  DeletePageImpl page_id b = Ret (r, b') → replacer_ b' = replacer_ b.
Proof.
  unfold_Delete. simpl_fields.
  destruct (page_table_ b !! page_id) as [frame_id|]; [| by intros [= <- <-]].
  intros (page & _ & Hk)%bind_Ret_inv. revert Hk.
  case_bool_decide; by intros [= <- <-].
Qed.

(** C3. On a pool of one frame, page 0 is fetched and unpinned, which puts
    frame 0 in the replacer.  [DeletePage] of page 0 succeeds and pushes
    frame 0 on the free list while the replacer still holds it: the frame
    is in both. *)
Theorem C3_DeletePage_leaves_frame_in_replacer :
  ∃ b1 b2,
    run [FetchPage 0; UnpinPage 0 false] (new 1 Disk.new) = Ret b1 ∧
    page_table_ b1 !! 0%Z = Some 0 ∧
    pin_count_of 0 b1 = Some 0%Z ∧
    LRUReplacer.pages (replacer_ b1) = [0] ∧
    DeletePageImpl 0%Z b1 = Ret (true, b2) ∧
    free_list_ b2 = [0] ∧
    LRUReplacer.pages (replacer_ b2) = [0].
Proof.
  do 2 eexists. split; [vm_compute; reflexivity |].
  split_and!; vm_compute; reflexivity.
Qed.

(** *** Running out of frames *)

(** [FetchPageImpl] of a page that is not resident returns [nullptr] when
    the free list and the replacer are both empty, and changes nothing. *)
Lemma FetchPageImpl_null b page_id :
  page_table_ b !! page_id = None →
  free_list_ b = [] →
  LRUReplacer.pages (replacer_ b) = [] →
  FetchPageImpl page_id b = Ret (None, b).
Proof.
  intros Hres Hfree Hrep. unfold_Fetch. unfold LRUReplacer.Victim.
  by rewrite Hres, Hfree, Hrep.
Qed.

(** [NewPageImpl] returns [nullptr] when the page table has [pool_size_]
    entries or more and no entry leads to a frame with pin count [<= 0]. *)
Lemma NewPageImpl_null b :
  pool_size_ b ≤ size (page_table_ b) →
  find_unpinned (map_to_list (page_table_ b)) b = Ret false →
  NewPageImpl b = Ret (None, b).
Proof.
  intros Hfull Hnone. unfold_New.
  rewrite bool_decide_eq_true_2 by done. by rewrite Hnone.
Qed.

(** C5. On a pool of one frame, page 0 is fetched, unpinned and fetched
    again.  It is then resident with pin count zero, yet the replacer is
    empty: [FetchPage] of page 1 returns [nullptr], and [NewPage] passes
    its check, gets no victim and goes on with a frame identifier that was
    never set. *)
Theorem C5_unpinned_frame_not_obtainable :
  ∃ b,
    run [FetchPage 0; UnpinPage 0 false; FetchPage 0] (new 1 Disk.new) = Ret b ∧
    page_table_ b !! 0%Z = Some 0 ∧
    pin_count_of 0 b = Some 0%Z ∧
    page_table_ b !! 1%Z = None ∧
    free_list_ b = [] ∧
    FetchPageImpl 1%Z b = Ret (None, b) ∧
    NewPageImpl b = Undefined.
Proof.
  eexists. split; [vm_compute; reflexivity |].
  split_and!; vm_compute; reflexivity.
Qed.

(** *** Size of the page table *)

(** The manager as constructed: no page is resident and the free list
    holds every frame identifier. *)
Lemma new_initial pool_size d :
  page_table_ (new pool_size d) = ∅ ∧
  free_list_ (new pool_size d) = seq 0 pool_size ∧
  size (page_table_ (new pool_size d)) + length (free_list_ (new pool_size d))
    = pool_size.
Proof.
  simpl. split_and!; [done | done |].
  rewrite map_size_empty, length_seq. done.
Qed.

(** C6. On a pool of one frame, [NewPage] creates page 0, page 0 is
    unpinned, and [NewPage] creates page 1 in the frame of page 0 without
    erasing the entry of page 0: the page table then has two entries and
    the free list none, for a pool of size one. *)
Theorem C6_NewPage_keeps_entry_of_victim :
  ∃ b,
    run [NewPage; UnpinPage 0 false; NewPage] (new 1 Disk.new) = Ret b ∧
    pool_size_ b = 1 ∧
    page_table_ b !! 0%Z = Some 0 ∧
    page_table_ b !! 1%Z = Some 0 ∧
    size (page_table_ b) = 2 ∧
    free_list_ b = [].
Proof.
  eexists. split; [vm_compute; reflexivity |].
  split_and!; vm_compute; reflexivity.
Qed.

(** *** The shape of a miss and of a delete *)

Lemma find_page_of_frame_Ret frame_id pt page_id :
  find_page_of_frame frame_id pt = Ret page_id → pt !! page_id = Some frame_id.
Proof.
  unfold find_page_of_frame. intros Hd%deref_Ret_inv.
  destruct (list_find _ _) as [[i [k v]]|] eqn:Hfind; [| discriminate].
  simpl in Hd. injection Hd as ->.
  apply list_find_Some in Hfind as (Hi & Hv & _). simpl in Hv. subst v.
  apply elem_of_map_to_list. by eapply list_elem_of_lookup_2.
Qed.

Lemma written_WritePage page_id buffer d :
  Disk.written (Disk.WritePage page_id buffer d) = Disk.written d ++ [page_id].
Proof. unfold Disk.written. simpl. by rewrite omap_app. Qed.

Lemma written_ReadPage blank page_id d :
  Disk.written (Disk.ReadPage blank page_id d).2 = Disk.written d.
Proof.
  unfold Disk.written. simpl. rewrite omap_app. simpl. apply app_nil_r.
Qed.

Lemma written_DeallocatePage page_id d :
  Disk.written (Disk.DeallocatePage page_id d) = Disk.written d.
Proof.
  unfold Disk.written. simpl. rewrite omap_app. simpl. apply app_nil_r.
Qed.

(** The three ways through the miss path of [FetchPageImpl]: no frame to
    be had; a frame from the free list; a victim from the replacer, whose
    page is written back when the frame is dirty and loses its entry. *)
Lemma FetchPageImpl_miss b page_id r b' :
  page_table_ b !! page_id = None →
  FetchPageImpl page_id b = Ret (r, b') →
  (r = None ∧ b' = b ∧ free_list_ b = [] ∧ LRUReplacer.pages (replacer_ b) = [])
  ∨ (∃ frame_id rest page page',
       free_list_ b = frame_id :: rest ∧
       pages_ b !! frame_id = Some page ∧
       r = Some frame_id ∧
       free_list_ b' = rest ∧
       page_table_ b' = <[page_id := frame_id]> (page_table_ b) ∧
       replacer_ b' = LRUReplacer.Pin frame_id (replacer_ b) ∧
       pages_ b' = <[frame_id := page']> (pages_ b) ∧
       (0 < pin_count_ page')%Z ∧
       Disk.written (disk_manager_ b') = Disk.written (disk_manager_ b))
  ∨ (∃ frame_id rest old_page_id page page',
       free_list_ b = [] ∧
       LRUReplacer.pages (replacer_ b) = frame_id :: rest ∧
       page_table_ b !! old_page_id = Some frame_id ∧
       pages_ b !! frame_id = Some page ∧
       r = Some frame_id ∧
       free_list_ b' = [] ∧
       page_table_ b' =
         <[page_id := frame_id]> (delete old_page_id (page_table_ b)) ∧
       LRUReplacer.pages (replacer_ b') = LRUReplacer.erase_found frame_id rest ∧
       LRUReplacer.num_pages (replacer_ b') = LRUReplacer.num_pages (replacer_ b) ∧
       pages_ b' = <[frame_id := page']> (pages_ b) ∧
       (0 < pin_count_ page')%Z ∧
       Disk.written (disk_manager_ b') =
         Disk.written (disk_manager_ b) ++
           (if is_dirty_ page then [old_page_id] else [])).
Proof.
  intros Hres. unfold_Fetch. rewrite Hres.
  destruct (free_list_ b) as [|frame_id rest] eqn:Hfree.
  - unfold LRUReplacer.Victim.
    destruct (LRUReplacer.pages (replacer_ b)) as [|frame_id rest] eqn:Hrep.
    { simpl. intros [= <- <-]. by left. }
    simpl_fields.
    intros (chosen & Hchosen & Hk)%bind_Ret_inv.
    apply bind_Ret_inv in Hchosen as (old_page_id & Hold & Hchosen).
    apply find_page_of_frame_Ret in Hold.
    apply bind_Ret_inv in Hchosen as (page & Hpg%page_at_Ret & Hchosen).
    injection Hchosen as <-.
    assert (frame_id < length (pages_ b)) as Hlt by by eapply lookup_lt_Some.
    unfold page_at, IsDirty in Hk.
    right. right.
    destruct (is_dirty_ page) eqn:Hdirty; simpl_fields;
      rewrite list_lookup_insert_eq in Hk by done; simpl in Hk;
      injection Hk as <- <-; simpl_fields; rewrite list_insert_insert_eq;
      exists frame_id, rest, old_page_id, page; eexists;
      (split_and!; try done); try (case_bool_decide; simpl; lia);
      rewrite Hdirty; solve_written.
  - simpl_fields.
    intros (chosen & [= <-] & Hk)%bind_Ret_inv.
    apply bind_Ret_inv in Hk as (page & Hpg%page_at_Ret & Hk).
    simpl_fields. injection Hk as <- <-. simpl_fields.
    right. left. exists frame_id, rest, page. eexists.
    split_and!; try done; try (case_bool_decide; simpl; lia).
    solve_written.
Qed.

(** The ways through [DeletePageImpl]: the page is not resident; it is
    pinned; it is deleted. *)
Lemma DeletePageImpl_shape b page_id r b' :
  DeletePageImpl page_id b = Ret (r, b') →
  Disk.written (disk_manager_ b') = Disk.written (disk_manager_ b) ∧
  replacer_ b' = replacer_ b ∧
  ((page_table_ b' = page_table_ b ∧ free_list_ b' = free_list_ b ∧
    pages_ b' = pages_ b)
   ∨ (∃ frame_id page,
        page_table_ b !! page_id = Some frame_id ∧
        pages_ b !! frame_id = Some page ∧
        (pin_count_ page ≤ 0)%Z ∧
        r = true ∧
        page_table_ b' = delete page_id (page_table_ b) ∧
        free_list_ b' = free_list_ b ++ [frame_id] ∧
        pages_ b' = <[frame_id := ResetMemory page]> (pages_ b))).
Proof.
  unfold_Delete. simpl_fields.
  destruct (page_table_ b !! page_id) as [frame_id|] eqn:Hres.
  - intros (page & Hpg%page_at_Ret & Hk)%bind_Ret_inv. simpl_fields.
    revert Hk. unfold GetPinCount. case_bool_decide; intros [= <- <-]; simpl_fields.
    + rewrite written_DeallocatePage. split_and!; [done | done |]. by left.
    + rewrite written_DeallocatePage. split_and!; [done | done |].
      right. exists frame_id, page. split_and!; try done. lia.
  - intros [= <- <-]. simpl_fields. rewrite written_DeallocatePage.
    split_and!; [done | done |]. by left.
Qed.

(** *** Write-backs *)

Section WriteBack.

Variable allowed : page_id_t → Prop.

Lemma write_back_inv_new pool_size :
  write_back_inv allowed (new pool_size Disk.new).
Proof.
  constructor; simpl.
  - apply NoDup_seq.
  - constructor.
  - intros p q f Hp. by rewrite lookup_empty in Hp.
  - intros p f Hp. by rewrite lookup_empty in Hp.
  - intros p f pg Hp. by rewrite lookup_empty in Hp.
  - intros p Hp. by apply elem_of_nil in Hp.
Qed.

Lemma write_back_inv_Fetch b page_id r b' :
  write_back_inv allowed b →
  FetchPageImpl page_id b = Ret (r, b') →
  write_back_inv allowed b'.
Proof.
  intros [Hf Hr Hinj Hfr Hd Hw] Hrun.
  destruct (page_table_ b !! page_id) as [f|] eqn:Hres.
  { rewrite (FetchPageImpl_hit _ _ _ Hres) in Hrun. injection Hrun as <- <-.
    constructor; simpl_fields; simpl; try done.
    - by apply erase_found_NoDup.
    - intros q g pg Hq Hg. apply Hd; [done |]. by eapply erase_found_elem_of. }
  destruct (FetchPageImpl_miss _ _ _ _ Hres Hrun)
    as [(-> & -> & _)
       |[(f & rest & pg & pg' & Hfree & Hpg & -> & Hfree' & Htab & Hrep
            & Hpages & _ & Hwr)
        |(f & rest & old & pg & pg' & Hfree & Hrep & Hold & Hpg & -> & Hfree'
            & Htab & Hrep' & _ & Hpages & _ & Hwr)]].
  - by constructor.
  - rewrite Hfree in Hf, Hfr. apply NoDup_cons in Hf as [Hnin Hnd].
    constructor; rewrite ?Hfree', ?Htab, ?Hrep, ?Hpages, ?Hwr; simpl; try done.
    + by apply erase_found_NoDup.
    + intros x y g [[? ?]|[Hx1 Hx]]%lookup_insert_Some
                   [[? ?]|[Hy1 Hy]]%lookup_insert_Some; simplify_eq;
        first [ done | by eapply Hinj
              | exfalso; eapply Hfr; [eassumption | by left] ].
    + intros x g [[? ?]|[Hx1 Hx]]%lookup_insert_Some; simplify_eq; [done |].
      intros Hin. eapply Hfr; [exact Hx |]. by right.
    + intros x g pg0 Hx Hin Hpg0 Hdirty.
      assert (g ≠ f) as Hne.
      { intros ->. by eapply erase_found_not_elem_of. }
      apply lookup_insert_Some in Hx as [[? ?]|[Hx1 Hx]]; simplify_eq.
      rewrite list_lookup_insert_ne in Hpg0 by done.
      eapply Hd; eauto using erase_found_elem_of.
  - rewrite Hrep in Hr, Hd. apply NoDup_cons in Hr as [Hnin Hnd].
    assert (∀ x g, delete old (page_table_ b) !! x = Some g → g ≠ f) as Hother.
    { intros x g [Hx1 Hx]%lookup_delete_Some ->. apply Hx1. by eapply Hinj. }
    constructor; rewrite ?Hfree', ?Htab, ?Hrep', ?Hpages, ?Hwr; simpl; try done.
    + constructor.
    + by apply erase_found_NoDup.
    + intros x y g [[? ?]|[Hx1 Hx]]%lookup_insert_Some
                   [[? ?]|[Hy1 Hy]]%lookup_insert_Some; simplify_eq;
        first [ done | exfalso; by eapply Hother | idtac ].
      apply lookup_delete_Some in Hx as [_ Hx].
      apply lookup_delete_Some in Hy as [_ Hy]. by eapply Hinj.
    + intros x g _. apply not_elem_of_nil.
    + intros x g pg0 Hx Hin Hpg0 Hdirty.
      assert (g ≠ f) as Hne.
      { intros ->. by eapply erase_found_not_elem_of. }
      apply lookup_insert_Some in Hx as [[? ?]|[Hx1 Hx]]; simplify_eq.
      apply lookup_delete_Some in Hx as [_ Hx].
      rewrite list_lookup_insert_ne in Hpg0 by done.
      eapply Hd; eauto. right. by eapply erase_found_elem_of.
    + intros x [Hx|Hx]%elem_of_app; [by apply Hw |].
      destruct (is_dirty_ pg) eqn:Hdirty; [| by apply elem_of_nil in Hx].
      apply list_elem_of_singleton in Hx as ->.
      eapply Hd; eauto. by left.
Qed.

Lemma write_back_inv_Unpin b page_id is_dirty r b' :
  write_back_inv allowed b →
  (is_dirty = true → allowed page_id) →
  UnpinPageImpl page_id is_dirty b = Ret (r, b') →
  write_back_inv allowed b'.
Proof.
  intros [Hf Hr Hinj Hfr Hd Hw] Hallowed Hrun.
  destruct (page_table_ b !! page_id) as [f|] eqn:Hres; cycle 1.
  { revert Hrun. unfold_Unpin. rewrite Hres. intros [= <- <-]. by constructor. }
  destruct (pages_ b !! f) as [pg|] eqn:Hpg; cycle 1.
  { revert Hrun. unfold_Unpin. unfold page_at. rewrite Hres, Hpg. done. }
  destruct (UnpinPageImpl_resident _ _ _ _ _ _ _ Hres Hpg Hrun)
    as (_ & Htab & Hfree & Hdisk & _ & [n Hpages] & Hrep).
  assert (NoDup (LRUReplacer.pages (replacer_ b')) ∧
          ∀ g, g ∈ LRUReplacer.pages (replacer_ b') →
               g = f ∨ g ∈ LRUReplacer.pages (replacer_ b)) as [Hnd Hsub].
  { destruct (bool_decide (pin_count_ pg = 1)%Z).
    - split; [by eapply Unpin_NoDup |]. intros g. by eapply Unpin_elem_of.
    - rewrite Hrep. auto. }
  constructor; rewrite ?Htab, ?Hfree, ?Hdisk, ?Hpages; try done.
  intros q g pg0 Hq Hin Hpg0 Hdirty.
  destruct (decide (g = f)) as [->|Hne].
  - rewrite list_lookup_insert_eq in Hpg0 by by eapply lookup_lt_Some.
    injection Hpg0 as <-. simpl in Hdirty.
    rewrite (Hinj _ _ _ Hq Hres). auto.
  - rewrite list_lookup_insert_ne in Hpg0 by done.
    destruct (Hsub _ Hin) as [?|Hin']; [done |]. eauto.
Qed.

Lemma write_back_inv_Flush b page_id r b' :
  write_back_inv allowed b →
  allowed page_id →
  FlushPageImpl page_id b = Ret (r, b') →
  write_back_inv allowed b'.
Proof.
  intros [Hf Hr Hinj Hfr Hd Hw] Hallowed. unfold_Flush.
  destruct (page_table_ b !! page_id) as [f|]; [| by intros [= <- <-]].
  intros (pg & _ & [= <- <-])%bind_Ret_inv.
  constructor; simpl_fields; try done.
  intros x. rewrite written_WritePage.
  intros [Hx| ->%list_elem_of_singleton]%elem_of_app; auto.
Qed.

Lemma write_back_inv_Delete b page_id r b' :
  write_back_inv allowed b →
  DeletePageImpl page_id b = Ret (r, b') →
  write_back_inv allowed b'.
Proof.
  intros [Hf Hr Hinj Hfr Hd Hw] Hrun.
  destruct (DeletePageImpl_shape _ _ _ _ Hrun)
    as (Hwr & Hrep & [(Htab & Hfree & Hpages)
                     |(f & pg & Hres & Hpg & _ & _ & Htab & Hfree & Hpages)]).
  { constructor; rewrite ?Hwr, ?Hrep, ?Htab, ?Hfree, ?Hpages; done. }
  assert (∀ x g, delete page_id (page_table_ b) !! x = Some g → g ≠ f) as Hother.
  { intros x g [Hx1 Hx]%lookup_delete_Some ->. apply Hx1. by eapply Hinj. }
  constructor; rewrite ?Hwr, ?Hrep, ?Htab, ?Hfree, ?Hpages; try done.
  - apply NoDup_app. split_and!; [done | | apply NoDup_singleton].
    intros g Hg ->%list_elem_of_singleton. by eapply Hfr.
  - intros x y g [_ Hx]%lookup_delete_Some [_ Hy]%lookup_delete_Some.
    by eapply Hinj.
  - intros x g Hx [Hin| ->%list_elem_of_singleton]%elem_of_app.
    + apply lookup_delete_Some in Hx as [_ Hx]. by eapply Hfr.
    + by eapply Hother.
  - intros x g pg0 Hx Hin Hpg0 Hdirty.
    rewrite list_lookup_insert_ne in Hpg0 by (symmetry; by eapply Hother).
    apply lookup_delete_Some in Hx as [_ Hx]. eauto.
Qed.

(** [FlushAllPagesImpl] only talks to the disk manager. *)
Lemma FlushAllPagesImpl_fields b b' :
  FlushAllPagesImpl b = Ret b' →
  pool_size_ b' = pool_size_ b ∧ pages_ b' = pages_ b ∧
  replacer_ b' = replacer_ b ∧ free_list_ b' = free_list_ b ∧
  page_table_ b' = page_table_ b.
Proof.
  unfold FlushAllPagesImpl.
  generalize (map_to_list (page_table_ b)) as entries.
  assert (∀ entries acc,
            foldl (λ acc (pr : page_id_t * frame_id_t),
                     b ← acc; '(_, b) ← FlushPageImpl pr.1 b; Ret b)
                  acc entries = Ret b' →
            ∃ b0, acc = Ret b0 ∧
                  pool_size_ b' = pool_size_ b0 ∧ pages_ b' = pages_ b0 ∧
                  replacer_ b' = replacer_ b0 ∧ free_list_ b' = free_list_ b0 ∧
                  page_table_ b' = page_table_ b0) as Hfold.
  { induction entries as [|pr entries IH]; simpl; intros acc Hacc.
    - subst acc. by exists b'.
    - apply IH in Hacc as (b1 & Hb1 & Hps & Hpg & Hrp & Hfl & Hpt).
      apply bind_Ret_inv in Hb1 as (b0 & -> & Hb1).
      exists b0. split; [done |].
      apply bind_Ret_inv in Hb1 as ([r b2] & Hflush & [= ->]).
      revert Hflush. unfold_Flush.
      destruct (page_table_ b0 !! pr.1); [| by intros [= _ <-]].
      intros (pg & _ & [= _ <-])%bind_Ret_inv. by simpl_fields. }
  intros entries Hrun. apply Hfold in Hrun as (b0 & [= <-] & Hrun). done.
Qed.

Lemma write_back_inv_FlushAll b b' :
  write_back_inv allowed b →
  (∀ p, allowed p) →
  FlushAllPagesImpl b = Ret b' →
  write_back_inv allowed b'.
Proof.
  intros [Hf Hr Hinj Hfr Hd Hw] Hall Hrun.
  destruct (FlushAllPagesImpl_fields _ _ Hrun) as (_ & Hpg & Hrp & Hfl & Hpt).
  constructor; rewrite ?Hpg, ?Hrp, ?Hfl, ?Hpt; auto.
Qed.

Lemma write_back_inv_exec c b b' :
  write_back_inv allowed b →
  respects allowed c →
  exec c b = Ret b' →
  write_back_inv allowed b'.
Proof.
  intros Hinv Hc. destruct c as [p|p d|p| |p|]; simpl.
  - intros ([r b0] & Hrun & ->)%fmap_Ret_inv. by eapply write_back_inv_Fetch.
  - intros ([r b0] & Hrun & ->)%fmap_Ret_inv.
    eapply write_back_inv_Unpin; [done | | done]. by intros ->.
  - intros ([r b0] & Hrun & ->)%fmap_Ret_inv. by eapply write_back_inv_Flush.
  - done.
  - intros ([r b0] & Hrun & ->)%fmap_Ret_inv. by eapply write_back_inv_Delete.
  - by apply write_back_inv_FlushAll.
Qed.


End WriteBack.


(** *** The size of the page table without [NewPage] *)

(** Every call but [NewPage] keeps the number of resident pages plus the
    length of the free list. *)
Lemma exec_size_free c b b' :
  c ≠ NewPage →
  exec c b = Ret b' →
  size (page_table_ b') + length (free_list_ b')
    = size (page_table_ b) + length (free_list_ b).
Proof.
  intros Hc. destruct c as [p|p d|p| |p|]; simpl; [| | | done | |].
  - intros ([r b0] & Hrun & ->)%fmap_Ret_inv. simpl.
    destruct (page_table_ b !! p) as [f|] eqn:Hres.
    { rewrite (FetchPageImpl_hit _ _ _ Hres) in Hrun. by injection Hrun as <- <-. }
    destruct (FetchPageImpl_miss _ _ _ _ Hres Hrun)
      as [(-> & -> & _)
         |[(f & rest & pg & pg' & Hfree & Hpg & -> & Hfree' & Htab & _)
          |(f & rest & old & pg & pg' & Hfree & Hrep & Hold & Hpg & -> & Hfree'
              & Htab & _)]]; [done | |].
    + rewrite Htab, Hfree', Hfree, map_size_insert_None by done. simpl. lia.
    + rewrite Htab, Hfree', Hfree.
      rewrite map_size_insert_None by (by apply lookup_delete_None; right).
      rewrite map_size_delete_Some by done.
      assert (size (page_table_ b) ≠ 0); [| lia].
      intros Hempty%map_size_empty_inv. by rewrite Hempty, lookup_empty in Hold.
  - intros ([r b0] & Hrun & ->)%fmap_Ret_inv. simpl. revert Hrun. unfold_Unpin.
    destruct (page_table_ b !! p) as [f|] eqn:Hres; [| by intros [= <- <-]].
    intros (pg & Hpg%page_at_Ret & Hk)%bind_Ret_inv.
    assert (UnpinPageImpl p d b = Ret (r, b0)) as Hrun.
    { unfold_Unpin. unfold page_at. by rewrite Hres, Hpg. }
    destruct (UnpinPageImpl_resident _ _ _ _ _ _ _ Hres Hpg Hrun)
      as (_ & -> & -> & _). done.
  - intros ([r b0] & Hrun & ->)%fmap_Ret_inv. simpl. revert Hrun. unfold_Flush.
    destruct (page_table_ b !! p) as [f|]; [| by intros [= <- <-]].
    by intros (pg & _ & [= <- <-])%bind_Ret_inv.
  - intros ([r b0] & Hrun & ->)%fmap_Ret_inv. simpl.
    destruct (DeletePageImpl_shape _ _ _ _ Hrun)
      as (_ & _ & [(-> & -> & _)
                  |(f & pg & Hres & _ & _ & _ & -> & -> & _)]); [done |].
    rewrite map_size_delete_Some, length_app by done. simpl.
    assert (size (page_table_ b) ≠ 0); [| lia].
    intros Hempty%map_size_empty_inv. by rewrite Hempty, lookup_empty in Hres.
  - intros (_ & _ & _ & -> & ->)%FlushAllPagesImpl_fields. done.
Qed.

(** Without [NewPage], resident pages and free frames add up to the pool
    size after every run from a freshly constructed manager. *)
Lemma run_size_free pool_size d cs b :
  NewPage ∉ cs →
  run cs (new pool_size d) = Ret b →
  size (page_table_ b) + length (free_list_ b) = pool_size.
Proof.
  intros Hnew Hrun.
  rewrite <-(proj2 (proj2 (new_initial pool_size d))).
  revert Hrun. generalize (new pool_size d) as b0.
  induction cs as [|c cs IH]; simpl; intros b0.
  - by intros [= <-].
  - intros (b1 & Hexec & Hrun)%bind_Ret_inv.
    apply not_elem_of_cons in Hnew as [Hc Hnew].
    rewrite (IH Hnew _ Hrun). by eapply exec_size_free.
Qed.

(** *** Runs without [NewPage] are defined *)

Lemma find_page_of_frame_defined frame_id pt page_id :
  pt !! page_id = Some frame_id →
  ∃ q, find_page_of_frame frame_id pt = Ret q.
Proof.
  intros Hres. unfold find_page_of_frame.
  destruct (list_find_elem_of (λ pr : page_id_t * frame_id_t, pr.2 = frame_id)
              (map_to_list pt) (page_id, frame_id)) as [[i [k v]] ->].
  - by apply elem_of_map_to_list.
  - done.
  - by eexists.
Qed.

Lemma FetchPageImpl_defined b page_id :
  defined_inv b → ∃ r b', FetchPageImpl page_id b = Ret (r, b').
Proof.
  intros [Ht Hfr Hcap Hrep].
  destruct (page_table_ b !! page_id) as [f|] eqn:Hres.
  { rewrite (FetchPageImpl_hit _ _ _ Hres). by do 2 eexists. }
  unfold_Fetch. rewrite Hres.
  destruct (free_list_ b) as [|f rest] eqn:Hfree.
  - unfold LRUReplacer.Victim.
    destruct (LRUReplacer.pages (replacer_ b)) as [|f rest] eqn:Hpages.
    { by do 2 eexists. }
    destruct (Hrep f) as [Hin|[old Hold]]; [by left | by apply elem_of_nil in Hin |].
    destruct (find_page_of_frame_defined _ _ _ Hold) as [q Hq].
    destruct (lookup_lt_is_Some_2 (pages_ b) f) as [pg Hpg]; [by eapply Ht |].
    simpl_fields. rewrite Hq. unfold page_at. simpl_fields.
    rewrite Hpg. simpl.
    destruct (IsDirty pg); simpl_fields;
      (rewrite list_lookup_insert_eq by by eapply lookup_lt_Some);
      by do 2 eexists.
  - destruct (lookup_lt_is_Some_2 (pages_ b) f) as [pg Hpg].
    { apply Hfr. by left. }
    simpl. unfold page_at. simpl_fields. rewrite Hpg. by do 2 eexists.
Qed.

Lemma defined_inv_Fetch b page_id r b' :
  defined_inv b →
  NoDup (LRUReplacer.pages (replacer_ b)) →
  FetchPageImpl page_id b = Ret (r, b') →
  defined_inv b'.
Proof.
  intros [Ht Hfr Hcap Hrep] Hnd Hrun.
  destruct (page_table_ b !! page_id) as [f|] eqn:Hres.
  { rewrite (FetchPageImpl_hit _ _ _ Hres) in Hrun. injection Hrun as <- <-.
    constructor; simpl_fields; simpl; try done.
    intros g Hg. apply Hrep. by eapply erase_found_elem_of. }
  destruct (FetchPageImpl_miss _ _ _ _ Hres Hrun)
    as [(-> & -> & _)
       |[(f & rest & pg & pg' & Hfree & Hpg & -> & Hfree' & Htab & Hrep'
            & Hpages & _)
        |(f & rest & old & pg & pg' & Hfree & Hrp & Hold & Hpg & -> & Hfree'
            & Htab & Hrep' & Hnum & Hpages & _)]].
  - by constructor.
  - constructor; rewrite ?Hfree', ?Htab, ?Hrep', ?Hpages, ?length_insert;
      simpl; try done.
    + intros x g [[? ?]|[_ Hx]]%lookup_insert_Some; simplify_eq; [| by eapply Ht].
      apply Hfr. rewrite Hfree. by left.
    + intros g Hg. apply Hfr. rewrite Hfree. by right.
    + intros g Hg.
      assert (g ≠ f) as Hne.
      { intros ->. by eapply erase_found_not_elem_of. }
      destruct (Hrep g) as [Hin|[q Hq]]; [by eapply erase_found_elem_of | |].
      * left. rewrite Hfree in Hin. by apply elem_of_cons in Hin as [?|?].
      * right. exists q. rewrite lookup_insert_ne; [done |]. congruence.
  - rewrite Hrp in Hnd. apply NoDup_cons in Hnd as [Hnin Hnd].
    constructor; rewrite ?Hfree', ?Htab, ?Hrep', ?Hnum, ?Hpages, ?length_insert;
      simpl; try done.
    + intros x g [[? ?]|[_ Hx]]%lookup_insert_Some; simplify_eq; [by eapply Ht |].
      apply lookup_delete_Some in Hx as [_ Hx]. by eapply Ht.
    + intros g Hg. by apply elem_of_nil in Hg.
    + intros g Hg%erase_found_elem_of.
      assert (g ≠ f) as Hne by congruence.
      destruct (Hrep g) as [Hin|[q Hq]].
      * rewrite Hrp. by right.
      * rewrite Hfree in Hin. by apply elem_of_nil in Hin.
      * right. exists q.
        rewrite lookup_insert_ne by congruence.
        rewrite lookup_delete_ne by congruence. done.
Qed.

Lemma UnpinPageImpl_defined b page_id is_dirty :
  defined_inv b → ∃ r b', UnpinPageImpl page_id is_dirty b = Ret (r, b').
Proof.
  intros [Ht Hfr Hcap Hrep]. unfold_Unpin.
  destruct (page_table_ b !! page_id) as [f|] eqn:Hres; [| by do 2 eexists].
  destruct (lookup_lt_is_Some_2 (pages_ b) f) as [pg Hpg]; [by eapply Ht |].
  unfold page_at. rewrite Hpg. simpl.
  destruct (bool_decide (pin_count_ pg = 1)%Z).
  - destruct (Unpin_defined f (replacer_ b)) as [r' ->]; [| by do 2 eexists].
    rewrite Hcap. apply Ht in Hres. lia.
  - destruct (bool_decide (1 < pin_count_ pg)%Z); by do 2 eexists.
Qed.

Lemma defined_inv_Unpin b page_id is_dirty r b' :
  defined_inv b →
  UnpinPageImpl page_id is_dirty b = Ret (r, b') →
  defined_inv b'.
Proof.
  intros [Ht Hfr Hcap Hrep] Hrun.
  destruct (page_table_ b !! page_id) as [f|] eqn:Hres; cycle 1.
  { revert Hrun. unfold_Unpin. rewrite Hres. intros [= <- <-]. by constructor. }
  destruct (lookup_lt_is_Some_2 (pages_ b) f) as [pg Hpg]; [by eapply Ht |].
  destruct (UnpinPageImpl_resident _ _ _ _ _ _ _ Hres Hpg Hrun)
    as (_ & Htab & Hfree & _ & _ & [n Hpages] & Hrp).
  assert (LRUReplacer.num_pages (replacer_ b')
            = LRUReplacer.num_pages (replacer_ b) ∧
          ∀ g, g ∈ LRUReplacer.pages (replacer_ b') →
               g = f ∨ g ∈ LRUReplacer.pages (replacer_ b)) as [Hnum Hsub].
  { destruct (bool_decide (pin_count_ pg = 1)%Z).
    - split; [by eapply Unpin_num_pages |]. intros g. by eapply Unpin_elem_of.
    - rewrite Hrp. auto. }
  constructor; rewrite ?Htab, ?Hfree, ?Hnum, ?Hpages, ?length_insert; try done.
  intros g [->|Hg]%Hsub; [| by apply Hrep]. right. by exists page_id.
Qed.

Lemma FlushPageImpl_defined b page_id :
  defined_inv b →
  ∃ r d, FlushPageImpl page_id b = Ret (r, with_disk d b).
Proof.
  intros [Ht Hfr Hcap Hrep]. unfold_Flush.
  destruct (page_table_ b !! page_id) as [f|] eqn:Hres.
  - destruct (lookup_lt_is_Some_2 (pages_ b) f) as [pg Hpg]; [by eapply Ht |].
    unfold page_at. rewrite Hpg. simpl. by do 2 eexists.
  - exists false, (disk_manager_ b). by destruct b.
Qed.

Lemma defined_inv_with_disk b d : defined_inv b → defined_inv (with_disk d b).
Proof. intros [Ht Hfr Hcap Hrep]. by constructor. Qed.

Lemma DeletePageImpl_defined b page_id :
  defined_inv b → ∃ r b', DeletePageImpl page_id b = Ret (r, b').
Proof.
  intros [Ht Hfr Hcap Hrep]. unfold_Delete. simpl_fields.
  destruct (page_table_ b !! page_id) as [f|] eqn:Hres; [| by do 2 eexists].
  destruct (lookup_lt_is_Some_2 (pages_ b) f) as [pg Hpg]; [by eapply Ht |].
  unfold page_at. simpl_fields. rewrite Hpg. simpl.
  case_bool_decide; by do 2 eexists.
Qed.

Lemma defined_inv_Delete b page_id r b' :
  defined_inv b →
  DeletePageImpl page_id b = Ret (r, b') →
  defined_inv b'.
Proof.
  intros [Ht Hfr Hcap Hrep] Hrun.
  destruct (DeletePageImpl_shape _ _ _ _ Hrun)
    as (_ & Hrp & [(Htab & Hfree & Hpages)
                  |(f & pg & Hres & Hpg & _ & _ & Htab & Hfree & Hpages)]).
  { constructor; rewrite ?Hrp, ?Htab, ?Hfree, ?Hpages; done. }
  constructor; rewrite ?Hrp, ?Htab, ?Hfree, ?Hpages, ?length_insert; try done.
  - intros x g [_ Hx]%lookup_delete_Some. by eapply Ht.
  - intros g [Hg| ->%list_elem_of_singleton]%elem_of_app; [by apply Hfr |].
    by eapply Ht.
  - intros g [Hin|[q Hq]]%Hrep.
    + left. apply elem_of_app. by left.
    + destruct (decide (q = page_id)) as [->|Hne].
      * left. apply elem_of_app. right. simplify_eq. by left.
      * right. exists q. by rewrite lookup_delete_ne.
Qed.

Lemma FlushAllPagesImpl_defined b :
  defined_inv b → ∃ d, FlushAllPagesImpl b = Ret (with_disk d b).
Proof.
  intros Hdef. unfold FlushAllPagesImpl.
  assert (∀ entries d,
            ∃ d', foldl (λ acc (pr : page_id_t * frame_id_t),
                           b ← acc; '(_, b) ← FlushPageImpl pr.1 b; Ret b)
                    (Ret (with_disk d b)) entries = Ret (with_disk d' b))
    as Hfold.
  { induction entries as [|pr entries IH]; simpl; intros d; [by eexists |].
    destruct (FlushPageImpl_defined (with_disk d b) pr.1) as (r & d' & ->).
    { by apply defined_inv_with_disk. }
    simpl. apply IH. }
  destruct (Hfold (map_to_list (page_table_ b)) (disk_manager_ b)) as [d' Hd'].
  exists d'. rewrite <-Hd'. by destruct b.
Qed.

Lemma defined_inv_new pool_size d : defined_inv (new pool_size d).
Proof.
  constructor; simpl.
  - intros p f Hp. by rewrite lookup_empty in Hp.
  - intros f Hf%elem_of_seq. rewrite length_replicate. lia.
  - by rewrite length_replicate.
  - intros f Hf. by apply elem_of_nil in Hf.
Qed.

(** Every call but [NewPage] returns, and keeps what the next call needs to
    return. *)
Lemma exec_defined c b :
  c ≠ NewPage →
  defined_inv b →
  write_back_inv (λ _, True) b →
  ∃ b', exec c b = Ret b' ∧ defined_inv b' ∧ write_back_inv (λ _, True) b'.
Proof.
  intros Hc Hdef Hinv.
  assert (∃ b', exec c b = Ret b' ∧ defined_inv b') as (b' & Hexec & Hdef').
  { destruct c as [p|p d|p| |p|]; simpl; [| | | done | |].
    - destruct (FetchPageImpl_defined b p Hdef) as (r & b' & Hrun).
      rewrite Hrun. eexists. split; [done |]. simpl.
      eapply defined_inv_Fetch; [done | by destruct Hinv | done].
    - destruct (UnpinPageImpl_defined b p d Hdef) as (r & b' & Hrun).
      rewrite Hrun. eexists. split; [done |]. simpl.
      by eapply defined_inv_Unpin.
    - destruct (FlushPageImpl_defined b p Hdef) as (r & d & ->).
      eexists. split; [done |]. simpl. by apply defined_inv_with_disk.
    - destruct (DeletePageImpl_defined b p Hdef) as (r & b' & Hrun).
      rewrite Hrun. eexists. split; [done |]. simpl.
      by eapply defined_inv_Delete.
    - destruct (FlushAllPagesImpl_defined b Hdef) as (d & ->).
      eexists. split; [done |]. by apply defined_inv_with_disk. }
  exists b'. split_and!; [done | done |].
  eapply write_back_inv_exec; [exact Hinv | | exact Hexec].
  destruct c as [p|p [|]|p| |p|]; done.
Qed.

(** From a freshly constructed manager every sequence of calls without
    [NewPage] runs to the end: no call in it meets undefined behaviour. *)
Lemma run_defined pool_size cs :
  NewPage ∉ cs → ∃ b, run cs (new pool_size Disk.new) = Ret b.
Proof.
  intros Hnew.
  assert (∀ b, defined_inv b → write_back_inv (λ _, True) b →
               ∃ b', run cs b = Ret b') as Hrun.
  { induction cs as [|c cs IH]; simpl; intros b Hdef Hinv; [by eexists |].
    apply not_elem_of_cons in Hnew as [Hc Hnew].
    destruct (exec_defined c b) as (b' & -> & Hdef' & Hinv'); try done.
    simpl. by apply IH. }
  apply Hrun; [apply defined_inv_new | apply write_back_inv_new].
Qed.

End Manager.

(** A pool of two frames in which page 7 was fetched and unpinned. *)
Lemma C10_DeletePage_twice_witness :
  ∃ b,
    run 4 (zero_fill 4) [FetchPage 7; UnpinPage 7 true] (new 4 2 Disk.new)
      = Ret b ∧
    ∃ b1 b2,
      DeletePageImpl (zero_fill 4) 7%Z b = Ret (true, b1) ∧
      page_table_ b1 !! 7%Z = None ∧
      DeletePageImpl (zero_fill 4) 7%Z b1 = Ret (true, b2) ∧
      page_table_ b2 = page_table_ b1 ∧
      pages_ b2 = pages_ b1 ∧
      free_list_ b2 = free_list_ b1 ∧
      replacer_ b2 = replacer_ b1 ∧
      pool_size_ b2 = pool_size_ b1 ∧
      images (disk_manager_ b2) = images (disk_manager_ b1) ∧
      calls (disk_manager_ b2) =
        calls (disk_manager_ b1) ++ [CallDeallocatePage 7%Z].
Proof.
  eexists. split; [vm_compute; reflexivity |].
  apply (C10_DeletePage_twice (zero_fill 4) _ 7%Z 0
           (BuildPage (blank 4) 0 true)); vm_compute; reflexivity.
Defined.

(** A pool of one frame holding page 3, fetched and unpinned dirty:
    [FlushPage] writes the buffer and leaves the frame dirty; a page that
    is not resident is not written. *)
Lemma C8_FlushPage_witness :
  ∃ b b',
    run 4 (zero_fill 4) [FetchPage 3; UnpinPage 3 true] (new 4 1 Disk.new)
      = Ret b ∧
    FlushPageImpl 3%Z b = Ret (true, b') ∧
    calls (disk_manager_ b') =
      calls (disk_manager_ b) ++ [CallWritePage 3%Z (blank 4)] ∧
    is_dirty_of 0 b' = Some true ∧
    FlushPageImpl 4%Z b = Ret (false, b).
Proof.
  eexists.
  destruct (proj1 (C8_FlushPage
             (BuildBPM 1 [BuildPage (blank 4) 0 true]
                (LRUReplacer.Build [0] 1) [] {[ 3%Z := 0 ]}
                (BuildDisk ∅ 0%Z [CallReadPage 3%Z])) 3%Z)
             0 (BuildPage (blank 4) 0 true))
    as (b' & Hrun & Hcalls & _ & Hdirty & _).
  - vm_compute. reflexivity.
  - reflexivity.
  - exists b'. split; [vm_compute; reflexivity |].
    split; [exact Hrun |]. split; [exact Hcalls |]. split; [exact Hdirty |].
    apply (proj2 (C8_FlushPage _ 4%Z)). vm_compute. reflexivity.
Defined.

(** What the frame left in the replacer leads to (C3), with a
    [ResetMemory] that keeps the metadata: on a pool of one frame, page 0
    is fetched, unpinned and deleted, [NewPage] takes frame 0 from the free
    list and pins it while the replacer still holds it, and the fetch of
    page 5 evicts the pinned page. *)
Lemma pinned_frame_is_evicted :
  ∃ b b',
    run 4 (zero_fill 4)
        [FetchPage 0; UnpinPage 0 false; DeletePage 0; NewPage]
        (new 4 1 Disk.new) = Ret b ∧
    pin_count_of 0 b = Some 1%Z ∧
    LRUReplacer.pages (replacer_ b) = [0] ∧
    FetchPageImpl 4 (zero_fill 4) 5%Z b = Ret (Some 0, b') ∧
    page_table_ b' !! 0%Z = None.
Proof.
  do 2 eexists. split; [vm_compute; reflexivity |].
  split_and!; vm_compute; reflexivity.
Qed.




(** * Further properties of the replacer *)

Lemma erase_found_last f l :
  f ∉ l → LRUReplacer.erase_found f (l ++ [f]) = l.
Proof.
  induction l as [|y l IH]; simpl.
  - intros _. by rewrite decide_True.
  - rewrite not_elem_of_cons. intros [Hne Hnin].
    rewrite decide_False by congruence. by rewrite IH.
Qed.

Lemma filter_others f (l : list nat) : f ∉ l → filter (λ x, x ≠ f) l = l.
Proof.
  induction l as [|y l IH]; [done |].
  rewrite not_elem_of_cons. intros [Hne Hnin].
  rewrite filter_cons_True by congruence. by rewrite IH.
Qed.

Lemma erase_found_filter f l :
  NoDup l → LRUReplacer.erase_found f l = filter (λ x, x ≠ f) l.
Proof.
  induction 1 as [|y l Hy Hl IH]; simpl; [done |].
  case_decide as Hyf.
  - subst y. rewrite filter_cons_False by (intros ?; done).
    by rewrite filter_others.
  - rewrite filter_cons_True by done. by rewrite IH.
Qed.

Lemma erase_found_length f l :
  length (LRUReplacer.erase_found f l) ≤ length l.
Proof.
  induction l as [|y l IH]; simpl; [done |].
  case_decide; simpl; lia.
Qed.

Lemma Unpin_Size_le f r r' :
  0 < LRUReplacer.num_pages r →
  LRUReplacer.Size r ≤ LRUReplacer.num_pages r →
  LRUReplacer.Unpin f r = Ret r' →
  LRUReplacer.Size r' ≤ LRUReplacer.num_pages r.
Proof.
  unfold LRUReplacer.Unpin, LRUReplacer.Size. intros Hpos Hle.
  case_decide; [by intros [= <-] |].
  case_decide as Hcap.
  - destruct (LRUReplacer.pages r) as [|y l]; simpl in *; [lia |].
    intros [= <-]. simpl. rewrite length_app. simpl. lia.
  - simpl. intros [= <-]. simpl. rewrite length_app. simpl. lia.
Qed.

(** Unpinning untracked, distinct frames below capacity appends them in
    the order of the calls. *)
Lemma replacer_run_Unpin_fresh fs r :
  NoDup (LRUReplacer.pages r ++ fs) →
  length (LRUReplacer.pages r ++ fs) ≤ LRUReplacer.num_pages r →
  replacer_run (CallUnpin <$> fs) r =
    Ret (LRUReplacer.Build (LRUReplacer.pages r ++ fs) (LRUReplacer.num_pages r)).
Proof.
  revert r. induction fs as [|f fs IH]; intros [l n]; simpl.
  - by rewrite app_nil_r.
  - intros Hnd Hlen. rewrite length_app in Hlen. simpl in Hlen.
    unfold LRUReplacer.Unpin. simpl.
    rewrite decide_False; cycle 1.
    { apply NoDup_app in Hnd as (_ & Hdisj & _). intros Hin.
      eapply Hdisj; [exact Hin | by left]. }
    rewrite decide_False by lia. simpl.
    assert ((l ++ [f]) ++ fs = l ++ f :: fs) as Happ by by rewrite <-app_assoc.
    rewrite IH; simpl; rewrite Happ; [done | done |].
    rewrite length_app. simpl. lia.
Qed.

Lemma victims_all l n :
  victims (length l) (LRUReplacer.Build l n) = (l, LRUReplacer.Build [] n).
Proof.
  induction l as [|f l IH]; simpl; [done |].
  unfold LRUReplacer.Victim. simpl. by rewrite IH.
Qed.

(** X1. The replacer hands out victims in the order of the [Unpin] calls:
    after distinct untracked frames [fs] are unpinned on a replacer with
    room for them, [Victim] returns first the frames tracked before, then
    [fs] in the order they were unpinned, and after that it returns false
    on the empty replacer. *)
Theorem X1_victims_in_unpin_order (r : LRUReplacer.t) (fs : list frame_id_t) :
  NoDup (LRUReplacer.pages r ++ fs) →
  length (LRUReplacer.pages r ++ fs) ≤ LRUReplacer.num_pages r →
  ∃ r',
    replacer_run (CallUnpin <$> fs) r = Ret r' ∧
    victims (length (LRUReplacer.pages r ++ fs)) r' =
      (LRUReplacer.pages r ++ fs,
       LRUReplacer.Build [] (LRUReplacer.num_pages r)) ∧
    LRUReplacer.Victim (LRUReplacer.Build [] (LRUReplacer.num_pages r)) =
      (None, LRUReplacer.Build [] (LRUReplacer.num_pages r)).
Proof.
  intros Hnd Hlen. eexists. split; [by apply replacer_run_Unpin_fresh |].
  split; [apply victims_all | done].
Qed.

(** Frames 4, 2, 7 unpinned in that order on an empty replacer of
    capacity three come out as victims in that order. *)
Lemma X1_victims_in_unpin_order_witness :
  ∃ r',
    replacer_run [CallUnpin 4; CallUnpin 2; CallUnpin 7] (LRUReplacer.new 3)
      = Ret r' ∧
    victims 3 r' = ([4; 2; 7], LRUReplacer.Build [] 3) ∧
    LRUReplacer.Victim (LRUReplacer.Build [] 3) = (None, LRUReplacer.Build [] 3).
Proof.
  apply (X1_victims_in_unpin_order (LRUReplacer.new 3) [4; 2; 7]).
  - simpl. by_decide.
  - simpl. lia.
Defined.

(** X2. [Pin] undoes [Unpin]: unpinning a frame the replacer does not track
    while it is below capacity adds one entry, and pinning that frame again
    gives back the replacer as it was. *)
Theorem X2_Pin_undoes_Unpin (r : LRUReplacer.t) (frame_id : frame_id_t) :
  frame_id ∉ LRUReplacer.pages r →
  LRUReplacer.Size r < LRUReplacer.num_pages r →
  ∃ r',
    LRUReplacer.Unpin frame_id r = Ret r' ∧
    LRUReplacer.Size r' = S (LRUReplacer.Size r) ∧
    LRUReplacer.Pin frame_id r' = r.
Proof.
  destruct r as [l n]. unfold LRUReplacer.Unpin, LRUReplacer.Pin,
    LRUReplacer.Size. simpl. intros Hnin Hlt.
  rewrite decide_False by done. rewrite decide_False by lia. simpl.
  eexists. split; [done |]. simpl. split.
  - rewrite length_app. simpl. lia.
  - by rewrite erase_found_last.
Qed.

Lemma X2_Pin_undoes_Unpin_witness :
  ∃ r',
    LRUReplacer.Unpin 5 (LRUReplacer.Build [3; 1] 4) = Ret r' ∧
    LRUReplacer.Size r' = 3 ∧
    LRUReplacer.Pin 5 r' = LRUReplacer.Build [3; 1] 4.
Proof.
  apply (X2_Pin_undoes_Unpin (LRUReplacer.Build [3; 1] 4) 5).
  - simpl. by_decide.
  - unfold LRUReplacer.Size. simpl. lia.
Defined.

(** X3. On a replacer without duplicates [Pin] removes the frame and keeps
    the other frames in their order; the frame is then not tracked, and a
    second [Pin] of it changes nothing. *)
Theorem X3_Pin_removes_frame (r : LRUReplacer.t) (frame_id : frame_id_t) :
  NoDup (LRUReplacer.pages r) →
  LRUReplacer.pages (LRUReplacer.Pin frame_id r) =
    filter (λ x, x ≠ frame_id) (LRUReplacer.pages r) ∧
  LRUReplacer.num_pages (LRUReplacer.Pin frame_id r) = LRUReplacer.num_pages r ∧
  (frame_id ∉ LRUReplacer.pages (LRUReplacer.Pin frame_id r)) ∧
  LRUReplacer.Pin frame_id (LRUReplacer.Pin frame_id r) =
    LRUReplacer.Pin frame_id r.
Proof.
  intros Hnd. split_and!.
  - by apply erase_found_filter.
  - done.
  - by apply erase_found_not_elem_of.
  - apply Pin_absent. by apply erase_found_not_elem_of.
Qed.

Lemma X3_Pin_removes_frame_witness :
  LRUReplacer.pages (LRUReplacer.Pin 1 (LRUReplacer.Build [3; 1; 2] 4)) = [3; 2] ∧
  LRUReplacer.num_pages (LRUReplacer.Pin 1 (LRUReplacer.Build [3; 1; 2] 4)) = 4 ∧
  (1 ∉ LRUReplacer.pages (LRUReplacer.Pin 1 (LRUReplacer.Build [3; 1; 2] 4))) ∧
  LRUReplacer.Pin 1 (LRUReplacer.Pin 1 (LRUReplacer.Build [3; 1; 2] 4)) =
    LRUReplacer.Pin 1 (LRUReplacer.Build [3; 1; 2] 4).
Proof.
  apply (X3_Pin_removes_frame (LRUReplacer.Build [3; 1; 2] 4) 1).
  simpl. by_decide.
Defined.

Lemma replacer_exec_keeps c r :
  0 < LRUReplacer.num_pages r →
  NoDup (LRUReplacer.pages r) →
  LRUReplacer.Size r ≤ LRUReplacer.num_pages r →
  ∃ r', replacer_exec c r = Ret r' ∧
        LRUReplacer.num_pages r' = LRUReplacer.num_pages r ∧
        NoDup (LRUReplacer.pages r') ∧
        LRUReplacer.Size r' ≤ LRUReplacer.num_pages r'.
Proof.
  intros Hpos Hnd Hle. destruct c as [|f|f]; simpl.
  - eexists. split; [done |]. unfold LRUReplacer.Victim, LRUReplacer.Size in *.
    destruct (LRUReplacer.pages r) as [|y l] eqn:Hl; simpl.
    + by rewrite Hl.
    + apply NoDup_cons in Hnd as [_ Hnd]. simpl in Hle. split_and!; [done | done | lia].
  - eexists. split; [done |]. unfold LRUReplacer.Size in *. simpl. split_and!.
    + done.
    + by apply erase_found_NoDup.
    + pose proof (erase_found_length f (LRUReplacer.pages r)). lia.
  - destruct (Unpin_defined f r Hpos) as [r' Hr']. exists r'.
    pose proof (Unpin_num_pages _ _ _ Hr') as Hnum.
    split_and!; [done | done | by eapply Unpin_NoDup |].
    rewrite Hnum. by eapply Unpin_Size_le.
Qed.

(** X4. A replacer created with a capacity above zero goes through any
    sequence of [Victim], [Pin] and [Unpin] calls without undefined
    behaviour, and after it holds no frame twice and no more frames than
    its capacity. *)
Theorem X4_replacer_bounded_no_duplicates (num_pages : nat)
    (cs : list replacer_call) :
  0 < num_pages →
  ∃ r,
    replacer_run cs (LRUReplacer.new num_pages) = Ret r ∧
    LRUReplacer.num_pages r = num_pages ∧
    NoDup (LRUReplacer.pages r) ∧
    LRUReplacer.Size r ≤ num_pages.
Proof.
  intros Hpos.
  assert (∀ r0, LRUReplacer.num_pages r0 = num_pages →
                NoDup (LRUReplacer.pages r0) →
                LRUReplacer.Size r0 ≤ num_pages →
                ∃ r, replacer_run cs r0 = Ret r ∧
                     LRUReplacer.num_pages r = num_pages ∧
                     NoDup (LRUReplacer.pages r) ∧
                     LRUReplacer.Size r ≤ num_pages) as Hrun.
  { induction cs as [|c cs IH]; simpl; intros r0 Hnum Hnd Hle; [by exists r0 |].
    destruct (replacer_exec_keeps c r0) as (r1 & -> & Hnum1 & Hnd1 & Hle1);
      [lia | done | lia |].
    simpl. apply IH; [lia | done | lia]. }
  apply Hrun; simpl; [done | constructor | unfold LRUReplacer.Size; simpl; lia].
Qed.

Lemma X4_replacer_bounded_no_duplicates_witness :
  ∃ r,
    replacer_run [CallUnpin 0; CallUnpin 1; CallUnpin 0; CallUnpin 2;
                  CallPin 1; CallVictim; CallVictim; CallVictim]
                 (LRUReplacer.new 2) = Ret r ∧
    LRUReplacer.num_pages r = 2 ∧
    NoDup (LRUReplacer.pages r) ∧
    LRUReplacer.Size r ≤ 2.
Proof.
  apply (X4_replacer_bounded_no_duplicates 2). lia.
Defined.

(** * Further properties of the buffer pool manager *)

Section ManagerCalls.

Variable PAGE_SIZE : nat.
Variable ResetMemory : Page → Page.

Local Abbreviation new := (new PAGE_SIZE).
Local Abbreviation blank := (blank PAGE_SIZE).
Local Abbreviation FetchPageImpl := (FetchPageImpl PAGE_SIZE ResetMemory).
Local Abbreviation NewPageImpl := (NewPageImpl ResetMemory).
Local Abbreviation DeletePageImpl := (DeletePageImpl ResetMemory).
Local Abbreviation exec := (exec PAGE_SIZE ResetMemory).
Local Abbreviation run := (run PAGE_SIZE ResetMemory).

(** ** FetchPage on a page that is not resident *)

(** The miss path of [FetchPageImpl] in full: what each of its three ways
    leaves in the manager and on the disk manager. *)
Lemma FetchPageImpl_miss_detail b page_id r b' :
  page_table_ b !! page_id = None →
  FetchPageImpl page_id b = Ret (r, b') →
  (r = None ∧ b' = b ∧ free_list_ b = [] ∧ LRUReplacer.pages (replacer_ b) = [])
  ∨ (∃ frame_id rest page,
       free_list_ b = frame_id :: rest ∧
       pages_ b !! frame_id = Some page ∧
       r = Some frame_id ∧
       free_list_ b' = rest ∧
       page_table_ b' = <[page_id := frame_id]> (page_table_ b) ∧
       replacer_ b' = LRUReplacer.Pin frame_id (replacer_ b) ∧
       pool_size_ b' = pool_size_ b ∧
       pages_ b' =
         <[frame_id :=
             let page :=
               set_data (default blank (images (disk_manager_ b') !! page_id))
                        page in
             if bool_decide (pin_count_ page ≤ 0)%Z
             then set_pin_count 1 page else page]> (pages_ b) ∧
       images (disk_manager_ b') = images (disk_manager_ b) ∧
       next_page_id (disk_manager_ b') = next_page_id (disk_manager_ b) ∧
       calls (disk_manager_ b') =
         calls (disk_manager_ b) ++ [CallReadPage page_id])
  ∨ (∃ frame_id rest old_page_id page,
       free_list_ b = [] ∧
       LRUReplacer.pages (replacer_ b) = frame_id :: rest ∧
       find_page_of_frame frame_id (page_table_ b) = Ret old_page_id ∧
       page_table_ b !! old_page_id = Some frame_id ∧
       pages_ b !! frame_id = Some page ∧
       r = Some frame_id ∧
       free_list_ b' = [] ∧
       page_table_ b' =
         <[page_id := frame_id]> (delete old_page_id (page_table_ b)) ∧
       LRUReplacer.pages (replacer_ b') = LRUReplacer.erase_found frame_id rest ∧
       LRUReplacer.num_pages (replacer_ b') = LRUReplacer.num_pages (replacer_ b) ∧
       pool_size_ b' = pool_size_ b ∧
       pages_ b' =
         <[frame_id :=
             let page :=
               set_data (default blank (images (disk_manager_ b') !! page_id))
                        (ResetMemory page) in
             if bool_decide (pin_count_ page ≤ 0)%Z
             then set_pin_count 1 page else page]> (pages_ b) ∧
       images (disk_manager_ b') =
         (if is_dirty_ page
          then <[old_page_id := data_ page]> (images (disk_manager_ b))
          else images (disk_manager_ b)) ∧
       next_page_id (disk_manager_ b') = next_page_id (disk_manager_ b) ∧
       calls (disk_manager_ b') =
         calls (disk_manager_ b) ++
           (if is_dirty_ page then [CallWritePage old_page_id (data_ page)] else [])
           ++ [CallReadPage page_id]).
Proof.
  intros Hres. unfold_Fetch. rewrite Hres.
  destruct (free_list_ b) as [|frame_id rest] eqn:Hfree.
  - unfold LRUReplacer.Victim.
    destruct (LRUReplacer.pages (replacer_ b)) as [|frame_id rest] eqn:Hrep.
    { simpl. intros [= <- <-]. by left. }
    simpl_fields.
    intros (chosen & Hchosen & Hk)%bind_Ret_inv.
    apply bind_Ret_inv in Hchosen as (old_page_id & Hfind & Hchosen).
    pose proof (find_page_of_frame_Ret _ _ _ Hfind) as Hold.
    apply bind_Ret_inv in Hchosen as (page & Hpg%page_at_Ret & Hchosen).
    injection Hchosen as <-.
    assert (frame_id < length (pages_ b)) as Hlt by by eapply lookup_lt_Some.
    unfold page_at, IsDirty, GetData in Hk.
    right. right.
    destruct (is_dirty_ page) eqn:Hdirty; simpl_fields;
      rewrite list_lookup_insert_eq in Hk by done; simpl in Hk;
      injection Hk as <- <-; simpl_fields; rewrite list_insert_insert_eq;
      exists frame_id, rest, old_page_id, page; rewrite Hdirty; simpl;
      split_and!; try done; by rewrite <-app_assoc.
  - simpl_fields.
    intros (chosen & [= <-] & Hk)%bind_Ret_inv.
    apply bind_Ret_inv in Hk as (page & Hpg%page_at_Ret & Hk).
    simpl_fields. injection Hk as <- <-. simpl_fields.
    right. left. exists frame_id, rest, page. by split_and!.
Qed.

(** X5. When [FetchPageImpl] returns a frame, the page is resident in
    that frame.  If the page was not resident before, the frame then has a
    positive pin count, its buffer holds the disk image of the page, and
    (the replacer holding no frame twice) the replacer does not track it. *)
Theorem X5_FetchPage_installs_page (b : BufferPoolManager)
    (page_id : page_id_t) (frame_id : frame_id_t) (b' : BufferPoolManager) :
  FetchPageImpl page_id b = Ret (Some frame_id, b') →
  page_table_ b' !! page_id = Some frame_id ∧
  (page_table_ b !! page_id = None →
   ∃ page',
     pages_ b' !! frame_id = Some page' ∧
     (0 < pin_count_ page')%Z ∧
     data_ page' = default blank (images (disk_manager_ b') !! page_id) ∧
     (NoDup (LRUReplacer.pages (replacer_ b)) →
      frame_id ∉ LRUReplacer.pages (replacer_ b'))).
Proof.
  intros Hrun. destruct (page_table_ b !! page_id) as [f|] eqn:Hres.
  { rewrite (FetchPageImpl_hit _ _ _ _ _ Hres) in Hrun.
    injection Hrun as <- <-. by split. }
  destruct (FetchPageImpl_miss_detail _ _ _ _ Hres Hrun)
    as [(? & _)
       |[(f & rest & pg & Hfree & Hpg & [= ->] & _ & Htab & Hrep & _ & Hpages & _)
        |(f & rest & old & pg & _ & Hrp & _ & _ & Hpg & [= ->] & _ & Htab & Hrep
            & _ & _ & Hpages & _)]]; [done | |].
  - split; [rewrite Htab; apply lookup_insert_eq |]. intros _.
    eexists. rewrite Hpages.
    split; [apply list_lookup_insert_eq; by eapply lookup_lt_Some |].
    simpl. split_and!.
    + case_bool_decide; simpl; lia.
    + by case_bool_decide.
    + intros Hnd. rewrite Hrep. by apply erase_found_not_elem_of.
  - split; [rewrite Htab; apply lookup_insert_eq |]. intros _.
    eexists. rewrite Hpages.
    split; [apply list_lookup_insert_eq; by eapply lookup_lt_Some |].
    simpl. split_and!.
    + case_bool_decide; simpl; lia.
    + by case_bool_decide.
    + rewrite Hrp, Hrep. intros [_ Hnd]%NoDup_cons.
      by apply erase_found_not_elem_of.
Qed.

(** X6. [FetchPageImpl] returns [nullptr] only for a page that is not
    resident, with the free list and the replacer both empty, and then it
    changes nothing and calls the disk manager not at all; for a page that
    is not resident it does return [nullptr] whenever both are empty. *)
Theorem X6_FetchPage_null (b : BufferPoolManager) (page_id : page_id_t) :
  (∀ b', FetchPageImpl page_id b = Ret (None, b') →
         b' = b ∧ page_table_ b !! page_id = None ∧
         free_list_ b = [] ∧ LRUReplacer.pages (replacer_ b) = []) ∧
  (page_table_ b !! page_id = None →
   free_list_ b = [] →
   LRUReplacer.pages (replacer_ b) = [] →
   FetchPageImpl page_id b = Ret (None, b)).
Proof.
  split; [| apply FetchPageImpl_null].
  intros b' Hrun. destruct (page_table_ b !! page_id) as [f|] eqn:Hres.
  { by rewrite (FetchPageImpl_hit _ _ _ _ _ Hres) in Hrun. }
  destruct (FetchPageImpl_miss_detail _ _ _ _ Hres Hrun)
    as [(_ & -> & ? & ?)
       |[(f & rest & pg & _ & _ & ? & _)
        |(f & rest & old & pg & _ & _ & _ & _ & _ & ? & _)]]; done.
Qed.

(** X7. Frames come from the free list first: while the free list is not
    empty a miss takes its front frame, leaves every page-table entry in
    place, writes nothing back and only reads the requested page. *)
Theorem X7_FetchPage_free_list_first (b : BufferPoolManager)
    (page_id : page_id_t) (frame_id : frame_id_t) (rest : list frame_id_t)
    (r : option frame_id_t) (b' : BufferPoolManager) :
  page_table_ b !! page_id = None →
  free_list_ b = frame_id :: rest →
  FetchPageImpl page_id b = Ret (r, b') →
  r = Some frame_id ∧
  free_list_ b' = rest ∧
  page_table_ b' = <[page_id := frame_id]> (page_table_ b) ∧
  replacer_ b' = LRUReplacer.Pin frame_id (replacer_ b) ∧
  calls (disk_manager_ b') = calls (disk_manager_ b) ++ [CallReadPage page_id] ∧
  images (disk_manager_ b') = images (disk_manager_ b).
Proof.
  intros Hres Hfree Hrun.
  destruct (FetchPageImpl_miss_detail _ _ _ _ Hres Hrun)
    as [(_ & _ & Hnil & _)
       |[(f & rest' & pg & Hfree' & _ & -> & Hrest & Htab & Hrep & _ & _ & Him
            & _ & Hcalls)
        |(f & rest' & old & pg & Hnil & _)]];
    [congruence | | congruence].
  rewrite Hfree in Hfree'. injection Hfree' as <- <-. done.
Qed.

(** X8. With the free list empty a miss evicts the frame at the front of
    the replacer, the least recently unpinned one: the page found for that
    frame loses its page-table entry, and it is written back, with the
    bytes of the frame, exactly when the frame is dirty; then the requested
    page is read. *)
Theorem X8_FetchPage_evicts_front (b : BufferPoolManager)
    (page_id : page_id_t) (frame_id : frame_id_t) (b' : BufferPoolManager) :
  page_table_ b !! page_id = None →
  free_list_ b = [] →
  FetchPageImpl page_id b = Ret (Some frame_id, b') →
  ∃ rest old_page_id page,
    LRUReplacer.pages (replacer_ b) = frame_id :: rest ∧
    page_table_ b !! old_page_id = Some frame_id ∧
    pages_ b !! frame_id = Some page ∧
    page_table_ b' !! old_page_id = None ∧
    page_table_ b' = <[page_id := frame_id]> (delete old_page_id (page_table_ b)) ∧
    calls (disk_manager_ b') =
      calls (disk_manager_ b) ++
        (if is_dirty_ page then [CallWritePage old_page_id (data_ page)] else [])
        ++ [CallReadPage page_id].
Proof.
  intros Hres Hfree Hrun.
  destruct (FetchPageImpl_miss_detail _ _ _ _ Hres Hrun)
    as [(? & _)
       |[(f & rest' & pg & Hfree' & _)
        |(f & rest & old & pg & _ & Hrp & _ & Hold & Hpg & [= ->] & _ & Htab & _
            & _ & _ & _ & _ & _ & Hcalls)]];
    [done | congruence |].
  exists rest, old, pg. split_and!; try done.
  rewrite Htab. rewrite lookup_insert_ne by congruence. apply lookup_delete_eq.
Qed.

(** X9. Write-back and read round trip: when a miss evicts a dirty frame
    whose only page is [page_id], and that page is fetched again right
    after, the frame it comes back in holds the bytes the evicted frame
    had. *)
Theorem X9_evicted_dirty_page_comes_back (b : BufferPoolManager)
    (page_id other : page_id_t) (frame_id frame_id' : frame_id_t)
    (page : Page) (b1 b2 : BufferPoolManager) :
  page_table_ b !! other = None →
  free_list_ b = [] →
  page_table_ b !! page_id = Some frame_id →
  (∀ p, page_table_ b !! p = Some frame_id → p = page_id) →
  pages_ b !! frame_id = Some page →
  is_dirty_ page = true →
  FetchPageImpl other b = Ret (Some frame_id, b1) →
  FetchPageImpl page_id b1 = Ret (Some frame_id', b2) →
  data_ <$> pages_ b2 !! frame_id' = Some (data_ page).
Proof.
  intros Hother Hfree Hres Honly Hpg Hdirty Hrun1 Hrun2.
  assert (other ≠ page_id) as Hne by congruence.
  destruct (FetchPageImpl_miss_detail _ _ _ _ Hother Hrun1)
    as [(? & _)
       |[(f & rest' & pg & Hfree' & _)
        |(f & rest & old & pg & _ & _ & _ & Hold & Hpg' & [= <-] & _ & Htab & _
            & _ & _ & _ & Him & _)]];
    [done | congruence |].
  apply Honly in Hold as ->. rewrite Hpg in Hpg'. injection Hpg' as <-.
  rewrite Hdirty in Him.
  assert (page_table_ b1 !! page_id = None) as Hres1.
  { rewrite Htab. rewrite lookup_insert_ne by done. apply lookup_delete_eq. }
  assert (images (disk_manager_ b2) !! page_id = Some (data_ page)) as Him2.
  { destruct (FetchPageImpl_miss_detail _ _ _ _ Hres1 Hrun2)
      as [(? & _)
         |[(f & rest' & pg & _ & _ & _ & _ & _ & _ & _ & _ & -> & _)
          |(f & rest' & old & pg & _ & _ & _ & Hold & _ & _ & _ & _ & _
              & _ & _ & _ & -> & _)]]; [done | |].
    - rewrite Him. apply lookup_insert_eq.
    - assert (old ≠ page_id) as Hne' by congruence.
      destruct (is_dirty_ pg); rewrite ?lookup_insert_ne by done;
        rewrite Him; apply lookup_insert_eq. }
  destruct (FetchPageImpl_miss_detail _ _ _ _ Hres1 Hrun2)
    as [(? & _)
       |[(f & rest' & pg & _ & Hpg2 & [= ->] & _ & _ & _ & _ & -> & _)
        |(f & rest' & old & pg & _ & _ & _ & _ & Hpg2 & [= ->] & _ & _ & _
            & _ & _ & -> & _)]]; [done | |];
    (rewrite list_lookup_insert_eq by by eapply lookup_lt_Some);
    simpl; rewrite Him2; simpl; by case_bool_decide.
Qed.

(** ** UnpinPage and DeletePage *)

Lemma Unpin_tracked f r r' :
  LRUReplacer.Unpin f r = Ret r' → f ∈ LRUReplacer.pages r'.
Proof.
  unfold LRUReplacer.Unpin. case_decide; [by intros [= <-] |].
  intros (kept & _ & [= <-])%bind_Ret_inv. simpl.
  apply elem_of_app. right. by left.
Qed.

(** X10. [UnpinPageImpl] returns false and changes nothing for a page that
    is not resident.  For a resident page with a positive pin count it
    returns true, lowers the pin count by exactly one, stores the dirty
    flag it was given and leaves the bytes alone; the frame is handed to
    the replacer exactly when the count reaches zero. *)
Theorem X10_UnpinPage_counts_down (b : BufferPoolManager)
    (page_id : page_id_t) (is_dirty : bool) :
  (page_table_ b !! page_id = None →
   UnpinPageImpl page_id is_dirty b = Ret (false, b)) ∧
  (∀ frame_id page r b',
     page_table_ b !! page_id = Some frame_id →
     pages_ b !! frame_id = Some page →
     (0 < pin_count_ page)%Z →
     UnpinPageImpl page_id is_dirty b = Ret (r, b') →
     r = true ∧
     pages_ b' !! frame_id =
       Some (BuildPage (data_ page) (pin_count_ page - 1) is_dirty) ∧
     page_table_ b' = page_table_ b ∧
     free_list_ b' = free_list_ b ∧
     disk_manager_ b' = disk_manager_ b ∧
     ((1 < pin_count_ page)%Z → replacer_ b' = replacer_ b) ∧
     (pin_count_ page = 1%Z →
      LRUReplacer.Unpin frame_id (replacer_ b) = Ret (replacer_ b') ∧
      frame_id ∈ LRUReplacer.pages (replacer_ b'))).
Proof.
  split.
  { intros Hres. unfold_Unpin. by rewrite Hres. }
  intros f pg r b' Hres Hpg Hpos. unfold_Unpin. unfold page_at.
  rewrite Hres, Hpg. simpl.
  assert (f < length (pages_ b)) as Hlt by by eapply lookup_lt_Some.
  rewrite (bool_decide_eq_false_2 (pin_count_ pg ≤ 0)%Z) by lia.
  destruct (decide (pin_count_ pg = 1)%Z) as [H1|H1].
  - rewrite (bool_decide_eq_true_2 _ H1).
    destruct (LRUReplacer.Unpin f (replacer_ b)) as [r0|] eqn:Hunpin;
      [| simpl; intros ?; discriminate].
    simpl. intros [= <- <-]. simpl_fields.
    rewrite list_lookup_insert_eq by done. rewrite H1.
    split_and!; try done; try lia. intros _. split; [done |].
    by eapply Unpin_tracked.
  - rewrite (bool_decide_eq_false_2 _ H1).
    rewrite (bool_decide_eq_true_2 (1 < pin_count_ pg)%Z) by lia.
    simpl. intros [= <- <-]. simpl_fields.
    rewrite list_lookup_insert_eq by done.
    split_and!; done.
Qed.

(** X11. [DeletePageImpl] refuses a page whose frame has a positive pin
    count: it returns false and the manager keeps page table, frames, free
    list and replacer as they were.  [DeallocatePage] has been called on
    the disk manager all the same, before the pin count was looked at. *)
Theorem X11_DeletePage_pinned (b : BufferPoolManager) (page_id : page_id_t)
    (frame_id : frame_id_t) (page : Page) :
  page_table_ b !! page_id = Some frame_id →
  pages_ b !! frame_id = Some page →
  (0 < pin_count_ page)%Z →
  ∃ b',
    DeletePageImpl page_id b = Ret (false, b') ∧
    page_table_ b' = page_table_ b ∧
    pages_ b' = pages_ b ∧
    free_list_ b' = free_list_ b ∧
    replacer_ b' = replacer_ b ∧
    calls (disk_manager_ b') =
      calls (disk_manager_ b) ++ [CallDeallocatePage page_id].
Proof.
  intros Hres Hpg Hpos. unfold_Delete. unfold page_at. simpl_fields.
  rewrite Hres. simpl. rewrite Hpg. simpl. unfold GetPinCount.
  rewrite bool_decide_eq_true_2 by done. by eexists.
Qed.

(** X12. A successful delete drops what the frame held: for a resident
    page whose frame has a pin count of zero or less, [DeletePageImpl]
    returns true, removes the one page-table entry, puts the frame at the
    back of the free list with the slot [ResetMemory] leaves, and issues no
    [WritePage], whether the frame was dirty or not. *)
Theorem X12_DeletePage_frees_frame (b : BufferPoolManager)
    (page_id : page_id_t) (frame_id : frame_id_t) (page : Page) :
  page_table_ b !! page_id = Some frame_id →
  pages_ b !! frame_id = Some page →
  (pin_count_ page ≤ 0)%Z →
  ∃ b',
    DeletePageImpl page_id b = Ret (true, b') ∧
    page_table_ b' = delete page_id (page_table_ b) ∧
    size (page_table_ b') + 1 = size (page_table_ b) ∧
    free_list_ b' = free_list_ b ++ [frame_id] ∧
    pages_ b' !! frame_id = Some (ResetMemory page) ∧
    Disk.written (disk_manager_ b') = Disk.written (disk_manager_ b) ∧
    images (disk_manager_ b') = images (disk_manager_ b).
Proof.
  intros Hres Hpg Hpin. unfold_Delete. unfold page_at. simpl_fields.
  rewrite Hres. simpl. rewrite Hpg. simpl. unfold GetPinCount.
  rewrite bool_decide_eq_false_2 by lia.
  eexists. split; [done |]. simpl_fields. split_and!; try done.
  - rewrite map_size_delete_Some by done.
    assert (size (page_table_ b) ≠ 0); [| lia].
    intros Hempty%map_size_empty_inv. by rewrite Hempty, lookup_empty in Hres.
  - apply list_lookup_insert_eq. by eapply lookup_lt_Some.
  - apply written_DeallocatePage.
Qed.

(** ** FlushAllPages *)

Local Abbreviation flush_step :=
  (λ (acc : outcome BufferPoolManager) (pr : Z * nat),
     b ← acc; '(_, b) ← FlushPageImpl pr.1 b; Ret b).

Lemma flush_fold_Undefined (es : list (Z * nat)) :
  foldl flush_step Undefined es = Undefined.
Proof. induction es as [|pr es IH]; simpl; [done | apply IH]. Qed.

(** The loop of [FlushAllPagesImpl] over entries of the page table: one
    [WritePage] per entry, in order, each with the bytes of its frame. *)
Lemma flush_fold (es : list (Z * nat)) b d b' :
  (∀ pr, pr ∈ es → page_table_ b !! pr.1 = Some pr.2) →
  foldl flush_step (Ret (with_disk d b)) es = Ret b' →
  ∃ d', b' = with_disk d' b ∧
        Disk.written d' = Disk.written d ++ es.*1 ∧
        next_page_id d' = next_page_id d ∧
        (∀ k, k ∉ es.*1 → images d' !! k = images d !! k) ∧
        (NoDup es.*1 → ∀ k v pg,
           (k, v) ∈ es → pages_ b !! v = Some pg →
           images d' !! k = Some (data_ pg)).
Proof.
  revert d. induction es as [|[k0 v0] es IH]; intros d Hes; simpl.
  - intros [= <-]. exists d. split_and!; try done.
    + by rewrite app_nil_r.
    + intros _ k v pg Hin. by apply elem_of_nil in Hin.
  - unfold_Flush. simpl_fields.
    assert (page_table_ b !! k0 = Some v0) as Hk0 by (apply (Hes (k0, v0)); by left).
    rewrite Hk0. simpl.
    unfold page_at. simpl_fields.
    destruct (pages_ b !! v0) as [pg0|] eqn:Hpg0; simpl;
      [| by rewrite flush_fold_Undefined].
    intros Hrun. apply IH in Hrun as (d' & -> & Hwr & Hnext & Hkeep & Hset);
      [| intros pr Hpr; apply Hes; by right].
    exists d'. split_and!; try done.
    + rewrite Hwr, written_WritePage. by rewrite <-app_assoc.
    + intros k [Hne Hnin]%not_elem_of_cons. rewrite Hkeep by done. simpl.
      by rewrite lookup_insert_ne.
    + intros [Hnin Hnd]%NoDup_cons k v pg [[= -> ->]|Hin]%elem_of_cons Hpg.
      * rewrite Hkeep by done. simpl. rewrite lookup_insert_eq.
        unfold GetData. congruence.
      * by eapply Hset.
Qed.

Lemma flush_fold_defined (es : list (Z * nat)) b d :
  (∀ pr, pr ∈ es →
         page_table_ b !! pr.1 = Some pr.2 ∧ pr.2 < length (pages_ b)) →
  ∃ b', foldl flush_step (Ret (with_disk d b)) es = Ret b'.
Proof.
  revert d. induction es as [|[k0 v0] es IH]; intros d Hes; simpl.
  - by eexists.
  - destruct (Hes (k0, v0)) as [Hk0 Hv0]; [by left |]. simpl in *.
    destruct (lookup_lt_is_Some_2 _ _ Hv0) as [pg0 Hpg0].
    unfold_Flush. simpl_fields. rewrite Hk0. simpl.
    unfold page_at. simpl_fields. rewrite Hpg0. simpl.
    apply IH. intros pr Hpr. apply Hes. by right.
Qed.

(** X13. [FlushAllPagesImpl], on a manager whose page table names frames
    of the frame array, returns; it writes every resident page exactly
    once and no other page, and leaves page table, frames (dirty flags
    included), free list and replacer as they were. *)
Theorem X13_FlushAllPages_writes_each_resident_page (b : BufferPoolManager) :
  (∀ p f, page_table_ b !! p = Some f → f < length (pages_ b)) →
  ∃ b' ps,
    FlushAllPagesImpl b = Ret b' ∧
    Disk.written (disk_manager_ b') = Disk.written (disk_manager_ b) ++ ps ∧
    NoDup ps ∧
    (∀ p, p ∈ ps ↔ is_Some (page_table_ b !! p)) ∧
    page_table_ b' = page_table_ b ∧
    pages_ b' = pages_ b ∧
    free_list_ b' = free_list_ b ∧
    replacer_ b' = replacer_ b.
Proof.
  intros Hframes.
  assert (∀ pr, pr ∈ map_to_list (page_table_ b) →
                page_table_ b !! pr.1 = Some pr.2) as Hes.
  { intros [k v]. apply elem_of_map_to_list. }
  assert (b = with_disk (disk_manager_ b) b) as Hb by by destruct b.
  destruct (flush_fold_defined (map_to_list (page_table_ b)) b
              (disk_manager_ b)) as [b' Hrun].
  { intros pr Hpr. split; [by apply Hes |]. eapply Hframes. by apply Hes. }
  destruct (flush_fold _ _ _ _ Hes Hrun) as (d' & -> & Hwr & _).
  exists (with_disk d' b), (map_to_list (page_table_ b)).*1.
  unfold FlushAllPagesImpl. rewrite Hb at 1. simpl_fields.
  split_and!; try done.
  - apply NoDup_fst_map_to_list.
  - intros p. rewrite list_elem_of_fmap. split.
    + intros ([k v] & -> & Hin). apply elem_of_map_to_list in Hin. by eexists.
    + intros [v Hv]. exists (p, v). split; [done |]. by apply elem_of_map_to_list.
Qed.

(** X14. After [FlushAllPagesImpl] the disk image of every resident page
    is the content of its frame, and the image of every other page is what
    it was. *)
Theorem X14_FlushAllPages_images (b b' : BufferPoolManager) :
  FlushAllPagesImpl b = Ret b' →
  (∀ p f page,
     page_table_ b !! p = Some f → pages_ b !! f = Some page →
     images (disk_manager_ b') !! p = Some (data_ page)) ∧
  (∀ p, page_table_ b !! p = None →
        images (disk_manager_ b') !! p = images (disk_manager_ b) !! p).
Proof.
  assert (∀ pr, pr ∈ map_to_list (page_table_ b) →
                page_table_ b !! pr.1 = Some pr.2) as Hes.
  { intros [k v]. apply elem_of_map_to_list. }
  assert (b = with_disk (disk_manager_ b) b) as Hb by by destruct b.
  unfold FlushAllPagesImpl. rewrite Hb at 1. simpl_fields. intros Hrun.
  destruct (flush_fold _ _ _ _ Hes Hrun) as (d' & -> & _ & _ & Hkeep & Hset).
  simpl_fields. split.
  - intros p f pg Hp Hpg. eapply Hset; [apply NoDup_fst_map_to_list | | done].
    by apply elem_of_map_to_list.
  - intros p Hp. apply Hkeep. rewrite list_elem_of_fmap.
    intros ([k v] & -> & Hin%elem_of_map_to_list). simpl in Hp. congruence.
Qed.

(** ** NewPage *)

Lemma find_unpinned_false (es : list (Z * nat)) b :
  find_unpinned es b = Ret false ↔
  ∀ pr, pr ∈ es →
        ∃ pg, pages_ b !! pr.2 = Some pg ∧ (0 < pin_count_ pg)%Z.
Proof.
  induction es as [|pr es IH]; simpl.
  - split; [| done]. intros _ pr Hpr. by apply elem_of_nil in Hpr.
  - unfold page_at, GetPinCount.
    destruct (pages_ b !! pr.2) as [pg|] eqn:Hpg; simpl.
    + case_bool_decide as Hpin.
      * split; [done |]. intros Hall.
        destruct (Hall pr) as (pg' & Hpg' & Hpos); [by left |].
        rewrite Hpg in Hpg'. injection Hpg' as <-. lia.
      * rewrite IH. split.
        -- intros Hall pr' [->|Hin]%elem_of_cons; [| by apply Hall].
           exists pg. split; [done | lia].
        -- intros Hall pr' Hin. apply Hall. by right.
    + split; [done |]. intros Hall.
      destruct (Hall pr) as (pg' & Hpg' & _); [by left |]. congruence.
Qed.

Lemma find_unpinned_true (es : list (Z * nat)) b :
  find_unpinned es b = Ret true →
  ∃ pr pg, pr ∈ es ∧ pages_ b !! pr.2 = Some pg ∧ (pin_count_ pg ≤ 0)%Z.
Proof.
  induction es as [|pr es IH]; simpl; [done |].
  unfold page_at, GetPinCount.
  destruct (pages_ b !! pr.2) as [pg|] eqn:Hpg; simpl; [| done].
  case_bool_decide as Hpin.
  - intros _. exists pr, pg. split_and!; [by left | done | done].
  - intros (pr' & pg' & Hin & Hrest)%IH. exists pr', pg'. split; [by right | done].
Qed.

(** The two ways out of [NewPageImpl]: [nullptr] after the check, or a
    new page in a frame from the free list or from the replacer. *)
Lemma NewPageImpl_shape b r b' :
  NewPageImpl b = Ret (r, b') →
  (r = None ∧ b' = b ∧
   pool_size_ b ≤ size (page_table_ b) ∧
   find_unpinned (map_to_list (page_table_ b)) b = Ret false)
  ∨ (∃ frame_id page old,
       r = Some (next_page_id (disk_manager_ b), frame_id) ∧
       (pool_size_ b ≤ size (page_table_ b) →
        find_unpinned (map_to_list (page_table_ b)) b = Ret true) ∧
       pages_ b !! frame_id = Some page ∧
       ((∃ rest, free_list_ b = frame_id :: rest ∧ free_list_ b' = rest ∧
                 replacer_ b' = replacer_ b ∧ old = None)
        ∨ (∃ rest q,
             free_list_ b = [] ∧ free_list_ b' = [] ∧
             LRUReplacer.pages (replacer_ b) = frame_id :: rest ∧
             replacer_ b' =
               LRUReplacer.Build rest (LRUReplacer.num_pages (replacer_ b)) ∧
             old = Some q ∧ page_table_ b !! q = Some frame_id)) ∧
       page_table_ b' =
         <[next_page_id (disk_manager_ b) := frame_id]> (page_table_ b) ∧
       pool_size_ b' = pool_size_ b ∧
       pages_ b' =
         <[frame_id :=
             let kept := if is_dirty_ page then ResetMemory page else page in
             set_pin_count (pin_count_ kept + 1) kept]> (pages_ b) ∧
       next_page_id (disk_manager_ b') = (next_page_id (disk_manager_ b) + 1)%Z ∧
       calls (disk_manager_ b') =
         calls (disk_manager_ b)
           ++ [CallAllocatePage (next_page_id (disk_manager_ b))]
           ++ (if is_dirty_ page
               then match old with
                    | Some q => [CallWritePage q (data_ page)]
                    | None => []
                    end
               else []) ∧
       (is_dirty_ page = true → is_Some old) ∧
       (pin_count_ (if is_dirty_ page then ResetMemory page else page)
          < INT_MAX)%Z).
Proof.
  unfold_New. intros (all_pinned & Hcheck & Hk)%bind_Ret_inv.
  destruct all_pinned.
  { injection Hk as <- <-. left. revert Hcheck.
    case_bool_decide as Hfull; [| done].
    intros ([|] & Hfind & [=])%bind_Ret_inv. done. }
  right.
  assert (pool_size_ b ≤ size (page_table_ b) →
          find_unpinned (map_to_list (page_table_ b)) b = Ret true) as Hsome.
  { intros Hfull. revert Hcheck. rewrite bool_decide_eq_true_2 by done.
    by intros ([|] & Hfind & [=])%bind_Ret_inv. }
  clear Hcheck. unfold Disk.AllocatePage in Hk. simpl_fields.
  apply bind_Ret_inv in Hk as ([[f old] b1] & Hsel & Hk).
  apply bind_Ret_inv in Hk as (pg & Hpg%page_at_Ret & Hk).
  apply bind_Ret_inv in Hk as ([pg1 b2] & Hwb & Hk).
  apply bind_Ret_inv in Hk as (pg2 & Hinc & Hk).
  injection Hk as <- <-. simpl_fields.
  assert ((pin_count_ pg1 < INT_MAX)%Z ∧
          pg2 = set_pin_count (pin_count_ pg1 + 1) pg1) as [Hmax ->].
  { revert Hinc. case_bool_decide; [by intros [= <-] | done]. }
  assert (pages_ b1 = pages_ b ∧ page_table_ b1 = page_table_ b ∧
          pool_size_ b1 = pool_size_ b ∧
          images (disk_manager_ b1) = images (disk_manager_ b) ∧
          next_page_id (disk_manager_ b1) = (next_page_id (disk_manager_ b) + 1)%Z ∧
          calls (disk_manager_ b1) =
            calls (disk_manager_ b)
              ++ [CallAllocatePage (next_page_id (disk_manager_ b))] ∧
          ((∃ rest, free_list_ b = f :: rest ∧ free_list_ b1 = rest ∧
                    replacer_ b1 = replacer_ b ∧ old = None)
           ∨ (∃ rest q,
                free_list_ b = [] ∧ free_list_ b1 = [] ∧
                LRUReplacer.pages (replacer_ b) = f :: rest ∧
                replacer_ b1 =
                  LRUReplacer.Build rest (LRUReplacer.num_pages (replacer_ b)) ∧
                old = Some q ∧ page_table_ b !! q = Some f)))
    as (Hpages1 & Htab1 & Hpool1 & Him1 & Hnext1 & Hcalls1 & Hsrc).
  { destruct (free_list_ b) as [|f0 rest] eqn:Hfree.
    - unfold LRUReplacer.Victim in Hsel.
      destruct (LRUReplacer.pages (replacer_ b)) as [|f0 rest] eqn:Hrep;
        [done |].
      apply bind_Ret_inv in Hsel as (q & Hq%find_page_of_frame_Ret & [= <- <- <-]).
      simpl_fields. split_and!; try done. right. by exists rest, q.
    - injection Hsel as <- <- <-. simpl_fields. split_and!; try done.
      left. by exists rest. }
  rewrite Hpages1 in Hpg.
  exists f, pg, old. unfold IsDirty, GetData in Hwb.
  destruct (is_dirty_ pg) eqn:Hdirty.
  - apply bind_Ret_inv in Hwb as (q & ->%deref_Ret_inv & [= <- <-]).
    unfold Disk.WritePage. simpl_fields. cbn [next_page_id calls images].
    rewrite Hpages1, Htab1, Hpool1, Hnext1, Hcalls1.
    destruct Hsrc as [(rest & _ & _ & _ & [=])|Hsrc].
    split_and!; try done; [by right | by rewrite <-app_assoc].
  - injection Hwb as <- <-.
    rewrite Hpages1, Htab1, Hpool1, Hnext1, Hcalls1.
    split_and!; done.
Qed.

(** X15. [NewPageImpl] returns [nullptr] exactly when the page table has
    at least [pool_size_] entries and every entry leads to a frame with a
    positive pin count; it has then changed nothing and allocated no page
    on disk. *)
Theorem X15_NewPage_null (b b' : BufferPoolManager) :
  NewPageImpl b = Ret (None, b') ↔
  b' = b ∧
  pool_size_ b ≤ size (page_table_ b) ∧
  ∀ p f, page_table_ b !! p = Some f →
         ∃ page, pages_ b !! f = Some page ∧ (0 < pin_count_ page)%Z.
Proof.
  split.
  - intros [(_ & -> & Hfull & Hfind)|(f & pg & old & [=] & _)]%NewPageImpl_shape.
    split_and!; [done | done |]. intros p f Hp.
    apply (proj1 (find_unpinned_false _ _) Hfind (p, f)).
    by apply elem_of_map_to_list.
  - intros (-> & Hfull & Hall). apply NewPageImpl_null; [done |].
    apply find_unpinned_false. intros [p f] Hin%elem_of_map_to_list.
    by eapply Hall.
Qed.

(** X16. A successful [NewPageImpl] returns the page identifier the disk
    manager hands out and the frame at the front of the free list, or, the
    free list being empty, at the front of the replacer.  It sets the
    page-table entry of that identifier to the frame, replacing the entry
    when the identifier was resident already, and leaves every other entry
    as it was, the entry of the page the frame held included.  The pin
    count of the frame was below [INT_MAX] and is raised by one, and
    nothing is read from disk; a frame that is not dirty keeps the bytes it
    held and nothing is written, a dirty frame is written back under a
    page identifier mapped to it and then reset. *)
Theorem X16_NewPage_installs_page (b : BufferPoolManager)
    (page_id : page_id_t) (frame_id : frame_id_t) (b' : BufferPoolManager) :
  NewPageImpl b = Ret (Some (page_id, frame_id), b') →
  page_id = next_page_id (disk_manager_ b) ∧
  next_page_id (disk_manager_ b') = (page_id + 1)%Z ∧
  page_table_ b' = <[page_id := frame_id]> (page_table_ b) ∧
  (∀ q, q ≠ page_id → page_table_ b' !! q = page_table_ b !! q) ∧
  match free_list_ b with
  | front :: rest =>
      frame_id = front ∧ free_list_ b' = rest ∧ replacer_ b' = replacer_ b
  | [] =>
      ∃ rest, LRUReplacer.pages (replacer_ b) = frame_id :: rest ∧
              LRUReplacer.pages (replacer_ b') = rest
  end ∧
  ∃ page write_back,
    pages_ b !! frame_id = Some page ∧
    (pin_count_ (if is_dirty_ page then ResetMemory page else page)
       < INT_MAX)%Z ∧
    pages_ b' !! frame_id =
      Some (let kept := if is_dirty_ page then ResetMemory page else page in
            set_pin_count (pin_count_ kept + 1) kept) ∧
    calls (disk_manager_ b') =
      calls (disk_manager_ b) ++ CallAllocatePage page_id :: write_back ∧
    (is_dirty_ page = false → write_back = []) ∧
    (is_dirty_ page = true →
     ∃ old, page_table_ b !! old = Some frame_id ∧
            write_back = [CallWritePage old (data_ page)]).
Proof.
  intros [(? & _)|(f & pg & old & [= -> ->] & _ & Hpg & Hsrc & Htab & _ & Hpages
                     & Hnext & Hcalls & Hold & Hmax)]%NewPageImpl_shape;
    [done |].
  split_and!; try done.
  - intros q Hq. rewrite Htab. by apply lookup_insert_ne.
  - destruct Hsrc as [(rest & -> & ? & ? & _)|(rest & q & -> & _ & ? & -> & _)];
      [done | by exists rest].
  - eexists pg, _. split_and!; [done | done | | exact Hcalls | |].
    + rewrite Hpages. apply list_lookup_insert_eq. by eapply lookup_lt_Some.
    + by intros ->.
    + intros Hdirty. rewrite Hdirty.
      destruct Hsrc as [(rest & _ & _ & _ & ->)|(rest & q & _ & _ & _ & _ & -> & Hq)].
      * by destruct (Hold Hdirty).
      * by exists q.
Qed.

(** ** Runs without [NewPage] *)






(** X18. Without [NewPage], after every run from a freshly constructed
    manager the resident pages and the free frames add up to the pool size;
    the page table never holds more pages than the pool has frames. *)
Theorem X18_runs_without_NewPage_fill_pool (pool_size : nat)
    (cs : list call) (b : BufferPoolManager) :
  NewPage ∉ cs →
  run cs (new pool_size Disk.new) = Ret b →
  size (page_table_ b) + length (free_list_ b) = pool_size ∧
  size (page_table_ b) ≤ pool_size.
Proof.
  intros Hnew Hrun.
  pose proof (run_size_free _ _ _ _ _ _ Hnew Hrun). lia.
Qed.


End ManagerCalls.

(** ** The properties above on concrete pools

    The pools have pages of four bytes and use [zero_fill] for
    [ResetMemory]. *)

(** First fetch on a fresh pool of two frames. *)
Lemma X5_FetchPage_installs_page_witness :
  ∃ b',
    FetchPageImpl 4 (zero_fill 4) 7%Z (new 4 2 Disk.new) = Ret (Some 0, b') ∧
    page_table_ b' !! 7%Z = Some 0 ∧
    (page_table_ (new 4 2 Disk.new) !! 7%Z = None →
     ∃ page',
       pages_ b' !! 0 = Some page' ∧
       (0 < pin_count_ page')%Z ∧
       data_ page' = default (blank 4) (images (disk_manager_ b') !! 7%Z) ∧
       (NoDup (LRUReplacer.pages (replacer_ (new 4 2 Disk.new))) →
        0 ∉ LRUReplacer.pages (replacer_ b'))).
Proof.
  eexists. split; [vm_compute; reflexivity |].
  apply (X5_FetchPage_installs_page 4 (zero_fill 4) (new 4 2 Disk.new) 7%Z 0).
  vm_compute. reflexivity.
Defined.

Lemma X7_FetchPage_free_list_first_witness :
  ∃ b',
    FetchPageImpl 4 (zero_fill 4) 7%Z (new 4 2 Disk.new) = Ret (Some 0, b') ∧
    Some 0 = Some 0 ∧
    free_list_ b' = [1] ∧
    page_table_ b' = <[7%Z := 0]> (page_table_ (new 4 2 Disk.new)) ∧
    replacer_ b' = LRUReplacer.Pin 0 (replacer_ (new 4 2 Disk.new)) ∧
    calls (disk_manager_ b') =
      calls (disk_manager_ (new 4 2 Disk.new)) ++ [CallReadPage 7%Z] ∧
    images (disk_manager_ b') = images (disk_manager_ (new 4 2 Disk.new)).
Proof.
  eexists. split; [vm_compute; reflexivity |].
  apply (X7_FetchPage_free_list_first 4 (zero_fill 4) (new 4 2 Disk.new)
           7%Z 0 [1]); vm_compute; reflexivity.
Defined.

(** A pool of one frame holding page 0, unpinned dirty: fetching page 1
    evicts it and writes it back. *)
Lemma X8_FetchPage_evicts_front_witness :
  ∃ b b',
    run 4 (zero_fill 4) [FetchPage 0; UnpinPage 0 true] (new 4 1 Disk.new)
      = Ret b ∧
    FetchPageImpl 4 (zero_fill 4) 1%Z b = Ret (Some 0, b') ∧
    ∃ rest old_page_id page,
      LRUReplacer.pages (replacer_ b) = 0 :: rest ∧
      page_table_ b !! old_page_id = Some 0 ∧
      pages_ b !! 0 = Some page ∧
      page_table_ b' !! old_page_id = None ∧
      page_table_ b' = <[1%Z := 0]> (delete old_page_id (page_table_ b)) ∧
      calls (disk_manager_ b') =
        calls (disk_manager_ b) ++
          (if is_dirty_ page then [CallWritePage old_page_id (data_ page)] else [])
          ++ [CallReadPage 1%Z].
Proof.
  do 2 eexists. split; [vm_compute; reflexivity |].
  split; [vm_compute; reflexivity |].
  apply (X8_FetchPage_evicts_front 4 (zero_fill 4)); vm_compute; reflexivity.
Defined.

(** A pool of two frames: page 5 sits dirty in frame 0 with bytes 1, 2, 3,
    4, page 6 clean in frame 1, both unpinned.  Fetching page 9 evicts
    page 5; fetching page 5 again brings the four bytes back, in frame 1. *)
Lemma X9_evicted_dirty_page_comes_back_witness :
  ∃ b1 b2,
    let b :=
      BuildBPM 2
        [BuildPage [x01; x02; x03; x04] 0 true; BuildPage (blank 4) 0 false]
        (LRUReplacer.Build [0; 1] 2) [] (<[5%Z := 0]> {[ 6%Z := 1 ]}) Disk.new in
    FetchPageImpl 4 (zero_fill 4) 9%Z b = Ret (Some 0, b1) ∧
    FetchPageImpl 4 (zero_fill 4) 5%Z b1 = Ret (Some 1, b2) ∧
    data_ <$> pages_ b2 !! 1 = Some [x01; x02; x03; x04].
Proof.
  do 2 eexists. cbv zeta. split; [vm_compute; reflexivity |].
  split; [vm_compute; reflexivity |].
  eapply (X9_evicted_dirty_page_comes_back 4 (zero_fill 4)
           (BuildBPM 2
              [BuildPage [x01; x02; x03; x04] 0 true; BuildPage (blank 4) 0 false]
              (LRUReplacer.Build [0; 1] 2) [] (<[5%Z := 0]> {[ 6%Z := 1 ]}) Disk.new)
           5%Z 9%Z 0 1 (BuildPage [x01; x02; x03; x04] 0 true)).
  - vm_compute. reflexivity.
  - reflexivity.
  - vm_compute. reflexivity.
  - intros p. simpl. rewrite lookup_insert_Some, lookup_singleton_Some.
    intros [[<- _]|[_ [_ ?]]]; [done | discriminate].
  - reflexivity.
  - reflexivity.
  - vm_compute. reflexivity.
  - vm_compute. reflexivity.
Defined.

(** Page 3 pinned in frame 0 of a pool of one frame. *)
Lemma X11_DeletePage_pinned_witness :
  ∃ b',
    let b :=
      BuildBPM 1 [BuildPage (blank 4) 1 false] (LRUReplacer.Build [] 1)
        [] {[ 3%Z := 0 ]} (BuildDisk ∅ 0%Z [CallReadPage 3%Z]) in
    DeletePageImpl (zero_fill 4) 3%Z b = Ret (false, b') ∧
    page_table_ b' = page_table_ b ∧
    pages_ b' = pages_ b ∧
    free_list_ b' = free_list_ b ∧
    replacer_ b' = replacer_ b ∧
    calls (disk_manager_ b') =
      calls (disk_manager_ b) ++ [CallDeallocatePage 3%Z].
Proof.
  apply (X11_DeletePage_pinned (zero_fill 4)
           (BuildBPM 1 [BuildPage (blank 4) 1 false] (LRUReplacer.Build [] 1)
              [] {[ 3%Z := 0 ]} (BuildDisk ∅ 0%Z [CallReadPage 3%Z]))
           3%Z 0 (BuildPage (blank 4) 1 false)); [reflexivity | reflexivity |].
  simpl. lia.
Defined.

(** Page 3 unpinned dirty in frame 0 of a pool of one frame. *)
Lemma X12_DeletePage_frees_frame_witness :
  ∃ b',
    let b :=
      BuildBPM 1 [BuildPage (blank 4) 0 true] (LRUReplacer.Build [0] 1)
        [] {[ 3%Z := 0 ]} (BuildDisk ∅ 0%Z [CallReadPage 3%Z]) in
    DeletePageImpl (zero_fill 4) 3%Z b = Ret (true, b') ∧
    page_table_ b' = delete 3%Z (page_table_ b) ∧
    size (page_table_ b') + 1 = size (page_table_ b) ∧
    free_list_ b' = free_list_ b ++ [0] ∧
    pages_ b' !! 0 = Some (zero_fill 4 (BuildPage (blank 4) 0 true)) ∧
    Disk.written (disk_manager_ b') = Disk.written (disk_manager_ b) ∧
    images (disk_manager_ b') = images (disk_manager_ b).
Proof.
  apply (X12_DeletePage_frees_frame (zero_fill 4)
           (BuildBPM 1 [BuildPage (blank 4) 0 true] (LRUReplacer.Build [0] 1)
              [] {[ 3%Z := 0 ]} (BuildDisk ∅ 0%Z [CallReadPage 3%Z]))
           3%Z 0 (BuildPage (blank 4) 0 true)); [reflexivity | reflexivity |].
  simpl. lia.
Defined.

(** A pool of two frames holding pages 5 and 6. *)
Lemma X13_FlushAllPages_writes_each_resident_page_witness :
  ∃ b' ps,
    let b :=
      BuildBPM 2
        [BuildPage [x01; x02; x03; x04] 1 true; BuildPage (blank 4) 0 false]
        (LRUReplacer.Build [1] 2) [] (<[5%Z := 0]> {[ 6%Z := 1 ]}) Disk.new in
    FlushAllPagesImpl b = Ret b' ∧
    Disk.written (disk_manager_ b') = Disk.written (disk_manager_ b) ++ ps ∧
    NoDup ps ∧
    (∀ p, p ∈ ps ↔ is_Some (page_table_ b !! p)) ∧
    page_table_ b' = page_table_ b ∧
    pages_ b' = pages_ b ∧
    free_list_ b' = free_list_ b ∧
    replacer_ b' = replacer_ b.
Proof.
  apply (X13_FlushAllPages_writes_each_resident_page
           (BuildBPM 2
              [BuildPage [x01; x02; x03; x04] 1 true; BuildPage (blank 4) 0 false]
              (LRUReplacer.Build [1] 2) [] (<[5%Z := 0]> {[ 6%Z := 1 ]}) Disk.new)).
  intros p f. simpl. rewrite lookup_insert_Some, lookup_singleton_Some.
  intros [[_ <-]|[_ [_ <-]]]; lia.
Defined.

Lemma X14_FlushAllPages_images_witness :
  ∃ b',
    let b :=
      BuildBPM 2
        [BuildPage [x01; x02; x03; x04] 1 true; BuildPage (blank 4) 0 false]
        (LRUReplacer.Build [1] 2) [] (<[5%Z := 0]> {[ 6%Z := 1 ]}) Disk.new in
    FlushAllPagesImpl b = Ret b' ∧
    (∀ p f page,
       page_table_ b !! p = Some f → pages_ b !! f = Some page →
       images (disk_manager_ b') !! p = Some (data_ page)) ∧
    (∀ p, page_table_ b !! p = None →
          images (disk_manager_ b') !! p = images (disk_manager_ b) !! p).
Proof.
  eexists. cbv zeta. split; [vm_compute; reflexivity |].
  apply (X14_FlushAllPages_images
           (BuildBPM 2
              [BuildPage [x01; x02; x03; x04] 1 true; BuildPage (blank 4) 0 false]
              (LRUReplacer.Build [1] 2) [] (<[5%Z := 0]> {[ 6%Z := 1 ]}) Disk.new)).
  vm_compute. reflexivity.
Defined.

(** A pool of two frames in which page 0 was fetched before the disk
    manager allocated it: [NewPage] is given the identifier 0, takes frame
    1 from the free list and replaces the entry of page 0. *)
Lemma X16_NewPage_installs_page_witness :
  ∃ b b',
    run 4 (zero_fill 4) [FetchPage 0] (new 4 2 Disk.new) = Ret b ∧
    page_table_ b !! 0%Z = Some 0 ∧
    NewPageImpl (zero_fill 4) b = Ret (Some (0%Z, 1), b') ∧
    page_table_ b' = <[0%Z := 1]> (page_table_ b) ∧
    page_table_ b' !! 0%Z = Some 1 ∧
    next_page_id (disk_manager_ b') = 1%Z ∧
    pin_count_of 1 b' = Some 1%Z.
Proof.
  do 2 eexists. split; [vm_compute; reflexivity |].
  split; [vm_compute; reflexivity |].
  split; [vm_compute; reflexivity |].
  edestruct (X16_NewPage_installs_page (zero_fill 4)
               (BuildBPM 2 [BuildPage (blank 4) 1 false; new_Page 4]
                  (LRUReplacer.Build [] 2) [1] {[ 0%Z := 0 ]}
                  (BuildDisk ∅ 0%Z [CallReadPage 0%Z]))
               0%Z 1)
    as (_ & Hnext & Htab & _); [vm_compute; reflexivity |].
  split; [exact Htab |].
  split; [vm_compute; reflexivity |].
  split; [exact Hnext | vm_compute; reflexivity].
Defined.


Lemma X18_runs_without_NewPage_fill_pool_witness :
  ∃ b,
    run 4 (zero_fill 4)
        [FetchPage 0; FetchPage 1; UnpinPage 0 true; FetchPage 2; DeletePage 1]
        (new 4 2 Disk.new) = Ret b ∧
    size (page_table_ b) + length (free_list_ b) = 2 ∧
    size (page_table_ b) ≤ 2.
Proof.
  eexists. split; [vm_compute; reflexivity |].
  apply (X18_runs_without_NewPage_fill_pool 4 (zero_fill 4) 2
           [FetchPage 0; FetchPage 1; UnpinPage 0 true; FetchPage 2;
            DeletePage 1]);
    [by_decide | vm_compute; reflexivity].
Defined.


(** The increment of [NewPageImpl] at the top of the [int] range: on a pool
    of one free frame whose pin count is [INT_MAX] the call allocates a
    page and then overflows the pin count, which is undefined. *)
Lemma NewPageImpl_pin_count_overflow :
  NewPageImpl (zero_fill 4)
    (BuildBPM 1 [BuildPage (blank 4) INT_MAX false] (LRUReplacer.new 1)
       [0] ∅ Disk.new) = Undefined.
Proof. vm_compute. reflexivity. Qed.
